(** * glimpsh: gaze protocol codec, grid addressing and dwell-time focus arbitration

    A shallow embedding of [glimpsh/gaze/protocol.py],
    [glimpsh/tui/grid_adapter.py] and [glimpsh/terminal/focus.py].

    Python floats are IEEE-754 binary64 values and are modelled by Rocq's
    primitive floats; Python ints are unbounded and are modelled by [Z].
    A call that may raise returns an [outcome]. *)

From Stdlib Require Import ZArith Floats Lia.
From Stdlib Require Uint63.
From Stdlib.Strings Require Import Byte.
From stdpp Require Import gmap strings list.

Open Scope Z_scope.

Set Warnings "-register-all,-inexact-float".

(** ** Python values, exceptions and builtin conversions *)

(** The exception classes the modelled code can raise. *)
Inductive exc_kind :=
| ValueError | TypeError | OverflowError | AttributeError | StructError.

(** The text carried by an exception ([str(e)]).  Only the one message the
    repository formats itself is kept; the texts of the builtins are not. *)
Inductive exc_msg :=
| MsgInvalidBinaryLength (n : nat)
| MsgBuiltin.

Inductive outcome (A : Type) :=
| Ok (a : A)
| Raise (k : exc_kind) (m : exc_msg).
Arguments Ok {A} a.
Arguments Raise {A} k m.

#[global] Instance outcome_ret : MRet outcome := fun A a => Ok a.

#[global] Instance outcome_bind : MBind outcome := fun A B f c =>
  match c with
  | Ok a => f a
  | Raise k m => Raise k m
  end.

(** The call returns a value: it does not raise. *)
Definition succeeds {A : Type} (c : outcome A) : Prop :=
  exists a, c = Ok a.

(** The values [json.loads] produces, which are also the values a mapping
    handed to [parse_message] holds. *)
Inductive pyval :=
| PyNone
| PyBool (b : bool)
| PyInt (z : Z)
| PyFloat (f : float)
| PyStr (s : string)
| PyList (l : list pyval)
| PyDict (d : gmap string pyval).

(** Truth value of an object, as [if obj:] tests it. *)
Definition py_truthy (v : pyval) : bool :=
  match v with
  | PyNone => false
  | PyBool b => b
  | PyInt z => negb (z =? 0)
  | PyFloat f => negb (PrimFloat.eqb f 0)
  | PyStr s => negb (String.eqb s "")
  | PyList l => match l with [] => false | _ => true end
  | PyDict d => negb (bool_decide (d = ∅))
  end.

(** [d.get(k, default)]. *)
Definition dict_get (d : gmap string pyval) (k : string) (default : pyval) : pyval :=
  match d !! k with
  | Some v => v
  | None => default
  end.

(** Conversion of an int to a float, as arithmetic between a float and an
    int and the builtin [float] perform it: correctly rounded (to nearest,
    ties to even), [OverflowError] when the int is beyond the double range. *)
Definition float_of_int (z : Z) : outcome float :=
  match binary_normalize prec emax z 0 false with
  | S754_infinity _ => Raise OverflowError MsgBuiltin
  | sf => Ok (SF2Prim sf)
  end.

(** [int(f)] on a float: truncation toward zero; NaN and the infinities
    raise. *)
Definition int_of_float (f : float) : outcome Z :=
  match Prim2SF f with
  | S754_nan => Raise ValueError MsgBuiltin
  | S754_infinity _ => Raise OverflowError MsgBuiltin
  | S754_zero _ => Ok 0
  | S754_finite s m e =>
      let a := Z.shiftl (Z.pos m) e in
      Ok (if s then - a else a)
  end.

(** [f >= n] for a float [f] and an int [n]; Python compares the two
    exactly, without converting the int. *)
Definition float_ge_int (f : float) (n : Z) : bool :=
  match Prim2SF f with
  | S754_nan => false
  | S754_infinity s => negb s
  | S754_zero _ => n <=? 0
  | S754_finite s m e =>
      let v := if s then Z.neg m else Z.pos m in
      if 0 <=? e then n <=? Z.shiftl v e else Z.shiftl n (- e) <=? v
  end.

(** The builtins that read a number out of text, and the JSON reader:
    library code, taken as given. [None] is the [ValueError] of
    [float]/[int], respectively the [JSONDecodeError] of [json.loads]. *)
Class PyBuiltins := {
  float_of_str : string -> option float;
  int_of_str : string -> option Z;
  json_loads : string -> option pyval
}.

Section Conversions.
Context `{PyBuiltins}.

(** The builtin [float(v)]. *)
Definition py_float (v : pyval) : outcome float :=
  match v with
  | PyFloat f => Ok f
  | PyInt z => float_of_int z
  | PyBool b => Ok (if b then 1%float else 0%float)
  | PyStr s =>
      match float_of_str s with
      | Some f => Ok f
      | None => Raise ValueError MsgBuiltin
      end
  | PyNone | PyList _ | PyDict _ => Raise TypeError MsgBuiltin
  end.

(** The builtin [int(v)]. *)
Definition py_int (v : pyval) : outcome Z :=
  match v with
  | PyInt z => Ok z
  | PyBool b => Ok (if b then 1 else 0)
  | PyFloat f => int_of_float f
  | PyStr s =>
      match int_of_str s with
      | Some z => Ok z
      | None => Raise ValueError MsgBuiltin
      end
  | PyNone | PyList _ | PyDict _ => Raise TypeError MsgBuiltin
  end.
End Conversions.

(** ** [struct.unpack] of little-endian 32-bit floats *)

Definition u32_le (b0 b1 b2 b3 : byte) : Z :=
  Z.lor (Z.of_N (Byte.to_N b0))
    (Z.lor (Z.shiftl (Z.of_N (Byte.to_N b1)) 8)
       (Z.lor (Z.shiftl (Z.of_N (Byte.to_N b2)) 16)
          (Z.shiftl (Z.of_N (Byte.to_N b3)) 24))).

(** The double that a binary32 bit pattern denotes (every binary32 value is
    a binary64 value). *)
Definition float_of_binary32 (w : Z) : float :=
  let s := Z.testbit w 31 in
  let e := Z.land (Z.shiftr w 23) 255 in
  let m := Z.land w (Z.ones 23) in
  if e =? 255 then
    if m =? 0 then (if s then neg_infinity else infinity) else nan
  else if e =? 0 then
    match m with
    | Z.pos p => SF2Prim (S754_finite s p (-149))
    | _ => SF2Prim (S754_zero s)
    end
  else
    SF2Prim (S754_finite s (Z.to_pos (Z.lor m (Z.shiftl 1 23))) (e - 150)).

Fixpoint unpack_floats (data : list byte) : list float :=
  match data with
  | b0 :: b1 :: b2 :: b3 :: rest =>
      float_of_binary32 (u32_le b0 b1 b2 b3) :: unpack_floats rest
  | _ => []
  end.

(** [struct.unpack("<f...f", data)] with [n] fields: the buffer must hold
    exactly [4 * n] bytes. *)
Definition struct_unpack_le_f (n : nat) (data : list byte) : outcome (list float) :=
  if (length data =? 4 * n)%nat then Ok (unpack_floats data)
  else Raise StructError MsgBuiltin.

(** ** [glimpsh/gaze/protocol.py] *)

Inductive MessageType :=
| GAZE_POINT | CALIBRATION_START | CALIBRATION_END | ERROR | STATUS | HELLO.

(** The dataclass [GazePoint]; its fields carry the prefix [gp_].  The cell
    fields hold whatever the mapping held, [PyNone] when there was none. *)
Record GazePoint := {
  gp_x : float;
  gp_y : float;
  gp_timestamp : float;
  gp_confidence : float;
  gp_seq : Z;
  gp_cell_row : pyval;
  gp_cell_col : pyval
}.

Section Protocol.
Context `{PyBuiltins}.

(** [GazePoint.from_dict]. *)
Definition from_dict (data : gmap string pyval) : outcome GazePoint :=
  cell ← match data !! "cell" with
         | Some c =>
             if py_truthy c then
               match c with
               | PyDict cd => Ok (dict_get cd "row" PyNone, dict_get cd "col" PyNone)
               | _ => Raise AttributeError MsgBuiltin
               end
             else Ok (PyNone, PyNone)
         | None => Ok (PyNone, PyNone)
         end;
  x ← py_float (dict_get data "x_px" (dict_get data "x" (PyInt 0)));
  y ← py_float (dict_get data "y_px" (dict_get data "y" (PyInt 0)));
  timestamp ← py_float (dict_get data "timestamp" (PyInt 0));
  confidence ← py_float (dict_get data "confidence" (PyFloat 1));
  seq ← py_int (dict_get data "seq" (PyInt 0));
  Ok {| gp_x := x; gp_y := y; gp_timestamp := timestamp;
        gp_confidence := confidence; gp_seq := seq;
        gp_cell_row := cell.1; gp_cell_col := cell.2 |}.
End Protocol.

(** [GazePoint.from_binary]; [now] is what [time.time()] reads when the
    payload is decoded. *)
Definition from_binary (data : list byte) (now : float) : outcome GazePoint :=
  fields ←
    (if (16 <=? length data)%nat then
       fs ← struct_unpack_le_f 4 (take 16 data);
       match fs with
       | [x; y; timestamp; confidence] => Ok (x, y, timestamp, confidence)
       | _ => Raise ValueError MsgBuiltin
       end
     else if (12 <=? length data)%nat then
       fs ← struct_unpack_le_f 3 (take 12 data);
       match fs with
       | [x; y; timestamp] => Ok (x, y, timestamp, 1%float)
       | _ => Raise ValueError MsgBuiltin
       end
     else if (8 <=? length data)%nat then
       fs ← struct_unpack_le_f 2 (take 8 data);
       match fs with
       | [x; y] => Ok (x, y, now, 1%float)
       | _ => Raise ValueError MsgBuiltin
       end
     else Raise ValueError (MsgInvalidBinaryLength (length data)));
  let '(x, y, timestamp, confidence) := fields in
  Ok {| gp_x := x; gp_y := y; gp_timestamp := timestamp;
        gp_confidence := confidence; gp_seq := 0;
        gp_cell_row := PyNone; gp_cell_col := PyNone |}.

(** The dataclass [ServerInfo]. *)
Record ServerInfo := {
  si_name : pyval;
  si_version : pyval
}.

Definition ServerInfo_from_dict (data : gmap string pyval) : ServerInfo :=
  {| si_name := dict_get data "name" (PyStr "Unknown");
     si_version := dict_get data "version" (PyStr "1.0") |}.

(** What a message's [error] field holds: the text of a caught exception,
    one of the three texts [parse_message] formats, or the value of the
    mapping's own ["error"] entry. *)
Inductive error_value :=
| ErrException (m : exc_msg)
| ErrInvalidJSON (s : string)
| ErrUnknownMessageFormat (d : gmap string pyval)
| ErrUnknownDataType (v : pyval)
| ErrField (v : pyval).

(** The dataclass [GazeMessage]. *)
Record GazeMessage := {
  msg_type : MessageType;
  msg_gaze_point : option GazePoint;
  msg_error : option error_value;
  msg_status : option pyval;
  msg_server_info : option ServerInfo
}.

Definition gaze_message (g : GazePoint) : GazeMessage :=
  {| msg_type := GAZE_POINT; msg_gaze_point := Some g; msg_error := None;
     msg_status := None; msg_server_info := None |}.

Definition error_message (e : error_value) : GazeMessage :=
  {| msg_type := ERROR; msg_gaze_point := None; msg_error := Some e;
     msg_status := None; msg_server_info := None |}.

Definition status_message (s : pyval) : GazeMessage :=
  {| msg_type := STATUS; msg_gaze_point := None; msg_error := None;
     msg_status := Some s; msg_server_info := None |}.

Definition hello_message (i : ServerInfo) : GazeMessage :=
  {| msg_type := HELLO; msg_gaze_point := None; msg_error := None;
     msg_status := None; msg_server_info := Some i |}.

(** What [parse_message] is handed: bytes, or any other object (a text is
    the object [PyStr s]). *)
Inductive payload :=
| Bytes (b : list byte)
| Object (v : pyval).

Definition has_key (d : gmap string pyval) (k : string) : bool :=
  bool_decide (is_Some (d !! k)).

(** [v == "hello"]. *)
Definition is_hello (v : pyval) : bool :=
  match v with
  | PyStr s => String.eqb s "hello"
  | _ => false
  end.

Section ParseMessage.
Context `{PyBuiltins}.

(** The part of [parse_message] after the bytes and text cases. *)
Definition parse_object (data : pyval) : outcome GazeMessage :=
  match data with
  | PyDict d =>
      if has_key d "type" && is_hello (dict_get d "type" PyNone) then
        Ok (hello_message (ServerInfo_from_dict d))
      else if has_key d "error" then
        Ok (error_message (ErrField (dict_get d "error" PyNone)))
      else if has_key d "status" && negb (has_key d "x_px") && negb (has_key d "x") then
        Ok (status_message (dict_get d "status" PyNone))
      else if has_key d "x_px" || has_key d "x" then
        gaze_point ← from_dict d;
        Ok (gaze_message gaze_point)
      else Ok (error_message (ErrUnknownMessageFormat d))
  | _ => Ok (error_message (ErrUnknownDataType data))
  end.

(** [parse_message]. *)
Definition parse_message (data : payload) (now : float) : outcome GazeMessage :=
  match data with
  | Bytes b =>
      match from_binary b now with
      | Ok gaze_point => Ok (gaze_message gaze_point)
      | Raise _ m => Ok (error_message (ErrException m))
      end
  | Object (PyStr s) =>
      match json_loads s with
      | Some v => parse_object v
      | None => Ok (error_message (ErrInvalidJSON s))
      end
  | Object v => parse_object v
  end.
End ParseMessage.

(** ** The protocol [FocusTarget] of [glimpsh/terminal/focus.py] *)

(** Anything that can receive gaze-based focus.  [focus_pane] changes the
    target; the manager's own record of that call is an [event]. *)
Class FocusTarget (T : Type) := {
  pane_count : T -> Z;
  rows : T -> Z;
  cols : T -> Z;
  focus_pane : T -> Z -> T;
  get_pane_at_position : T -> float -> float -> outcome (option Z)
}.

(** Focusing a pane changes neither the grid nor how positions resolve. *)
Class StableGrid (T : Type) `{FocusTarget T} := {
  pane_count_focus_pane : forall t i, pane_count (focus_pane t i) = pane_count t;
  cols_focus_pane : forall t i, cols (focus_pane t i) = cols t;
  get_pane_at_position_focus_pane : forall t i x y,
    get_pane_at_position (focus_pane t i) x y = get_pane_at_position t x y
}.

(** ** [glimpsh/tui/grid_adapter.py] *)

(** What the adapter touches of a [TerminalWidget]. *)
Record TerminalWidget := {
  is_focused_pane : bool
}.

Record TerminalGridAdapter := {
  _terminals : list TerminalWidget;
  _rows : Z;
  _cols : Z;
  _on_focus : bool;  (* whether a callback was given *)
  _inv_cols : float;
  _inv_rows : float
}.

(** What [TerminalGridAdapter.focus_pane] does besides flagging the
    widgets: the Textual [focus()] of one widget and the callback. *)
Inductive adapter_event :=
| WidgetFocus (index : Z)
| OnFocus (index : Z).

(** [1.0 / n if n > 0 else 0.0]. *)
Definition inverse_or_zero (n : Z) : outcome float :=
  if 0 <? n then f ← float_of_int n; Ok (1 / f)%float else Ok 0%float.

Module TerminalGridAdapter.

(** [__init__]. *)
Definition init (terminals : list TerminalWidget) (rows cols : Z) (on_focus : bool)
  : outcome TerminalGridAdapter :=
  inv_cols ← inverse_or_zero cols;
  inv_rows ← inverse_or_zero rows;
  Ok {| _terminals := terminals; _rows := rows; _cols := cols;
        _on_focus := on_focus; _inv_cols := inv_cols; _inv_rows := inv_rows |}.

Definition pane_count (a : TerminalGridAdapter) : Z :=
  Z.of_nat (length (_terminals a)).

Definition focus_pane (a : TerminalGridAdapter) (index : Z)
  : TerminalGridAdapter * list adapter_event :=
  if (index <? 0) || (Z.of_nat (length (_terminals a)) <=? index) then (a, [])
  else
    ({| _terminals :=
          imap (fun i _ => {| is_focused_pane := Z.of_nat i =? index |}) (_terminals a);
        _rows := _rows a; _cols := _cols a; _on_focus := _on_focus a;
        _inv_cols := _inv_cols a; _inv_rows := _inv_rows a |},
     WidgetFocus index :: (if _on_focus a then [OnFocus index] else [])).

Definition get_pane_at_position (a : TerminalGridAdapter) (x_ratio y_ratio : float)
  : outcome (option Z) :=
  if negb ((0 <=? x_ratio)%float && (x_ratio <=? 1)%float
           && ((0 <=? y_ratio)%float && (y_ratio <=? 1)%float))
  then Ok None
  else
    cols_f ← float_of_int (_cols a);
    col ← int_of_float (x_ratio * cols_f);
    rows_f ← float_of_int (_rows a);
    row ← int_of_float (y_ratio * rows_f);
    let col := if _cols a <=? col then _cols a - 1 else col in
    let row := if _rows a <=? row then _rows a - 1 else row in
    let index := row * _cols a + col in
    if Z.of_nat (length (_terminals a)) <=? index then Ok None
    else Ok (Some index).

End TerminalGridAdapter.

#[global] Instance TerminalGridAdapter_target : FocusTarget TerminalGridAdapter := {
  pane_count := TerminalGridAdapter.pane_count;
  rows := _rows;
  cols := _cols;
  focus_pane := fun a i => (TerminalGridAdapter.focus_pane a i).1;
  get_pane_at_position := TerminalGridAdapter.get_pane_at_position
}.

(** ** [FocusManager] of [glimpsh/terminal/focus.py] *)

(** The calls the manager makes outward, in the order it makes them. *)
Inductive event :=
| TargetFocusPane (index : Z)
| FocusChange (old_focus : option Z) (new_focus : Z).

Record FocusManager (T : Type) := {
  target : T;
  screen_width : Z;
  screen_height : Z;
  dwell_time_ms : Z;
  on_focus_change : bool;  (* whether a callback was given *)
  _current_focus : option Z;
  _candidate_focus : option Z;
  _candidate_start_time : option float;
  _inv_screen_width : float;
  _inv_screen_height : float
}.
Arguments target {T}.
Arguments screen_width {T}.
Arguments screen_height {T}.
Arguments dwell_time_ms {T}.
Arguments on_focus_change {T}.
Arguments _current_focus {T}.
Arguments _candidate_focus {T}.
Arguments _candidate_start_time {T}.
Arguments _inv_screen_width {T}.
Arguments _inv_screen_height {T}.

Module FocusManager.
Section Manager.
Context {T : Type} `{FocusTarget T}.

(** [__init__]. *)
Definition init (tgt : T) (width height dwell : Z) (callback : bool)
  : outcome (FocusManager T) :=
  inv_w ← inverse_or_zero width;
  inv_h ← inverse_or_zero height;
  Ok {| target := tgt; screen_width := width; screen_height := height;
        dwell_time_ms := dwell; on_focus_change := callback;
        _current_focus := Some 0; _candidate_focus := None;
        _candidate_start_time := None;
        _inv_screen_width := inv_w; _inv_screen_height := inv_h |}.

Definition current_focus (m : FocusManager T) : option Z := _current_focus m.

Definition pane_at (m : FocusManager T) (x y : float) : outcome (option Z) :=
  let x_ratio := (x * _inv_screen_width m)%float in
  let y_ratio := (y * _inv_screen_height m)%float in
  get_pane_at_position (target m) x_ratio y_ratio.

(** The assignments [_candidate_focus = c; _candidate_start_time = s]. *)
Definition set_candidate (m : FocusManager T) (c : option Z) (s : option float)
  : FocusManager T :=
  {| target := target m; screen_width := screen_width m;
     screen_height := screen_height m; dwell_time_ms := dwell_time_ms m;
     on_focus_change := on_focus_change m;
     _current_focus := _current_focus m; _candidate_focus := c;
     _candidate_start_time := s;
     _inv_screen_width := _inv_screen_width m;
     _inv_screen_height := _inv_screen_height m |}.

(** The commit block shared by [update], [update_from_cell] and
    [focus_pane]: take the focus, drop the candidate, focus the target's
    pane, then call the callback if there is one. *)
Definition commit (m : FocusManager T) (index : Z) : FocusManager T * list event :=
  let old_focus := _current_focus m in
  ({| target := focus_pane (target m) index; screen_width := screen_width m;
      screen_height := screen_height m; dwell_time_ms := dwell_time_ms m;
      on_focus_change := on_focus_change m;
      _current_focus := Some index; _candidate_focus := None;
      _candidate_start_time := None;
      _inv_screen_width := _inv_screen_width m;
      _inv_screen_height := _inv_screen_height m |},
   TargetFocusPane index
     :: (if on_focus_change m then [FocusChange old_focus index] else [])).

(** The lines [update] and [update_from_cell] have in common, from
    "Already focused on this pane" on; [clock] is what [time.time()]
    reads. *)
Definition dwell (m : FocusManager T) (pane_idx : Z) (clock : float)
  : FocusManager T * bool * list event :=
  if bool_decide (_current_focus m = Some pane_idx) then
    (set_candidate m None None, false, [])
  else
    let now := (clock * 1000)%float in
    if negb (bool_decide (_candidate_focus m = Some pane_idx)) then
      (set_candidate m (Some pane_idx) (Some now), false, [])
    else
      match _candidate_start_time m with
      | Some start =>
          let elapsed := (now - start)%float in
          if float_ge_int elapsed (dwell_time_ms m) then
            let '(m', evs) := commit m pane_idx in (m', true, evs)
          else (m, false, [])
      | None => (m, false, [])
      end.

Definition update (m : FocusManager T) (x y : float) (clock : float)
  : outcome (FocusManager T * bool * list event) :=
  pane_idx ← pane_at m x y;
  match pane_idx with
  | None => Ok (set_candidate m None None, false, [])
  | Some pane_idx => Ok (dwell m pane_idx clock)
  end.

Definition update_from_cell (m : FocusManager T) (row col : Z) (clock : float)
  : outcome (FocusManager T * bool * list event) :=
  let pane_idx := row * cols (target m) + col in
  if (pane_idx <? 0) || (pane_count (target m) <=? pane_idx) then
    Ok (set_candidate m None None, false, [])
  else Ok (dwell m pane_idx clock).

Definition focus_pane (m : FocusManager T) (index : Z)
  : outcome (FocusManager T * bool * list event) :=
  if (index <? 0) || (pane_count (target m) <=? index) then Ok (m, false, [])
  else if bool_decide (_current_focus m = Some index) then Ok (m, false, [])
  else let '(m', evs) := commit m index in Ok (m', true, evs).

End Manager.
End FocusManager.

(** ** Streams of calls *)

(** One call on the manager, from the gaze stream or by hand. *)
Inductive call :=
| Update (x y : float)
| UpdateFromCell (row col : Z)
| FocusPane (index : Z).

Section Streams.
Context {T : Type} `{FocusTarget T}.

Definition deliver (m : FocusManager T) (c : call) (clock : float)
  : outcome (FocusManager T * bool * list event) :=
  match c with
  | Update x y => FocusManager.update m x y clock
  | UpdateFromCell row col => FocusManager.update_from_cell m row col clock
  | FocusPane index => FocusManager.focus_pane m index
  end.

(** The calls of [cs] one after the other, each with its clock reading:
    the final manager, what each call returned, and every outward call
    made on the way. *)
Fixpoint run (m : FocusManager T) (cs : list (call * float))
  : outcome (FocusManager T * list bool * list event) :=
  match cs with
  | [] => Ok (m, [], [])
  | (c, clock) :: rest =>
      '(m1, changed, evs) ← deliver m c clock;
      '(m2, results, evs') ← run m1 rest;
      Ok (m2, changed :: results, evs ++ evs')
  end.

(** The pane a gaze sample resolves to: by position for [update], by
    [row * cols + col] and the range check for [update_from_cell]. *)
Definition resolves (m : FocusManager T) (c : call) : outcome (option Z) :=
  match c with
  | Update x y => FocusManager.pane_at m x y
  | UpdateFromCell row col =>
      let pane_idx := row * cols (target m) + col in
      if (pane_idx <? 0) || (pane_count (target m) <=? pane_idx) then Ok None
      else Ok (Some pane_idx)
  | FocusPane _ => Ok None
  end.

Definition is_gaze (c : call) : bool :=
  match c with
  | FocusPane _ => false
  | _ => true
  end.

(** The managers a program can hold: a constructed one, and what any call
    leaves behind. *)
Inductive reachable : FocusManager T -> Prop :=
| reachable_init tgt width height dwell callback m :
    FocusManager.init tgt width height dwell callback = Ok m ->
    reachable m
| reachable_deliver m c clock m' changed evs :
    reachable m ->
    deliver m c clock = Ok (m', changed, evs) ->
    reachable m'.
End Streams.

(** ** The resolution rule as the specification words it *)

(** [math.floor] of a float. *)
Definition floor_of_float (f : float) : outcome Z :=
  match Prim2SF f with
  | S754_nan => Raise ValueError MsgBuiltin
  | S754_infinity _ => Raise OverflowError MsgBuiltin
  | S754_zero _ => Ok 0
  | S754_finite s m e => Ok (Z.shiftl (if s then Z.neg m else Z.pos m) e)
  end.

Definition in_unit_interval (r : float) : bool :=
  ((0 <=? r) && (r <=? 1))%float.

(** Reject ratios outside [0,1] on either axis; otherwise
    [col = floor(x_ratio * cols)], [row = floor(y_ratio * rows)], each
    clamped to [cols - 1] / [rows - 1]; [index = row * cols + col]; absent
    when the index is not below the pane count. *)
Definition resolve_position (n_rows n_cols count : Z) (x_ratio y_ratio : float)
  : outcome (option Z) :=
  if negb (in_unit_interval x_ratio) || negb (in_unit_interval y_ratio) then Ok None
  else
    cols_f ← float_of_int n_cols;
    col ← floor_of_float (x_ratio * cols_f);
    rows_f ← float_of_int n_rows;
    row ← floor_of_float (y_ratio * rows_f);
    let index := Z.min row (n_rows - 1) * n_cols + Z.min col (n_cols - 1) in
    if count <=? index then Ok None else Ok (Some index).

(** The test [elapsed >= self.dwell_time_ms] for a candidate that started
    at clock reading [since] and a sample taken at clock reading [clock]. *)
Definition dwell_reached {T : Type} (m : FocusManager T) (since clock : float) : bool :=
  float_ge_int (clock * 1000 - since * 1000)%float (dwell_time_ms m).

(** The callback's share of a commit's outward calls. *)
Definition notification {T : Type} (m : FocusManager T) (new_focus : Z) : list event :=
  if on_focus_change m then [FocusChange (_current_focus m) new_focus] else [].

(** A gaze sample (a call with its clock reading) that resolves to pane
    [P] when the manager is [m]. *)
Definition gazes_at {T : Type} `{FocusTarget T} (m : FocusManager T) (P : Z)
    (s : call * float) : Prop :=
  is_gaze s.1 = true /\ resolves m s.1 = Ok (Some P).

(** The manager after the commit of pane [P] on a manager [m]. *)
Definition committed {T : Type} `{FocusTarget T} (m : FocusManager T) (P : Z)
  : FocusManager T :=
  (FocusManager.commit m P).1.

(** The default of [dwell_time_ms] in [FocusManager.__init__]. *)
Definition default_dwell_time_ms : Z := 200.

(** ** Reading a binary payload by offsets *)

(** The byte at offset [i] of a payload. *)
Definition byte_at (data : list byte) (i : nat) : byte := nth i data x00.

(** The little-endian 32-bit float in the four bytes from offset [i]. *)
Definition float_at (data : list byte) (i : nat) : float :=
  float_of_binary32
    (u32_le (byte_at data i) (byte_at data (i + 1))
       (byte_at data (i + 2)) (byte_at data (i + 3))).

(** The gaze point a binary payload makes: no sequence number, no cell. *)
Definition binary_point (x y timestamp confidence : float) : GazePoint :=
  {| gp_x := x; gp_y := y; gp_timestamp := timestamp;
     gp_confidence := confidence; gp_seq := 0;
     gp_cell_row := PyNone; gp_cell_col := PyNone |}.

(** x = 100.5, y = 200.25, timestamp = 12.0, confidence = 0.9 as four
    little-endian 32-bit floats. *)
Definition payload_16 : list byte :=
  [x00; x00; xc9; x42;  x00; x40; x48; x43;
   x00; x00; x40; x41;  x66; x66; x66; x3f].

(** Builtins for payloads that hold no text to convert: every text is
    refused. *)
Definition refuse_text : PyBuiltins :=
  {| float_of_str := fun _ => None;
     int_of_str := fun _ => None;
     json_loads := fun _ => None |}.

(** The gaze point of a mapping that holds only an x coordinate. *)
Definition point_with_defaults (x : float) : GazePoint :=
  {| gp_x := x; gp_y := 0; gp_timestamp := 0; gp_confidence := 1;
     gp_seq := 0; gp_cell_row := PyNone; gp_cell_col := PyNone |}.

(** ** A 2x2 grid of four terminals on an 80x24 screen *)

Definition plain_widget : TerminalWidget := {| is_focused_pane := false |}.

Definition grid_2x2 : TerminalGridAdapter :=
  {| _terminals := replicate 4 plain_widget; _rows := 2; _cols := 2;
     _on_focus := false; _inv_cols := 0.5; _inv_rows := 0.5 |}.

(** The manager [FocusManager(grid_2x2, 80, 24, 200, callback)] right after
    construction. *)
Definition manager_2x2 : FocusManager TerminalGridAdapter :=
  {| target := grid_2x2; screen_width := 80; screen_height := 24;
     dwell_time_ms := default_dwell_time_ms; on_focus_change := true;
     _current_focus := Some 0; _candidate_focus := None;
     _candidate_start_time := None;
     _inv_screen_width := (1 / 80)%float; _inv_screen_height := (1 / 24)%float |}.

(** A float that is not below zero: a zero of either sign, a positive
    number, plus infinity (or NaN). *)
Definition not_negative (sf : spec_float) : Prop :=
  match sf with
  | S754_finite true _ _ | S754_infinity true => False
  | _ => True
  end.

(** Every position that resolves on target [t] resolves to one of its
    panes. *)
Definition resolves_in_range {T : Type} `{FocusTarget T} (t : T) : Prop :=
  forall x y i, get_pane_at_position t x y = Ok (Some i) -> 0 <= i < pane_count t.

(** ** Invariants *)

(** The committed focus is a pane index: the 0 it is constructed with, or
    a pane of the target. *)
Definition focus_present {T : Type} `{FocusTarget T} (m : FocusManager T) : Prop :=
  resolves_in_range (target m)
  /\ exists i, _current_focus m = Some i /\ (i = 0 \/ 0 <= i < pane_count (target m)).

(** The focus is present and the candidate, when there is one, is another
    pane than the focus. *)
Definition focus_and_candidate_differ {T : Type} (m : FocusManager T) : Prop :=
  (exists i, _current_focus m = Some i)
  /\ forall P, _candidate_focus m = Some P -> _current_focus m <> Some P.

(** The cell of a mapping: absent, falsy, or a mapping of its own. *)
Definition cell_well_formed (data : gmap string pyval) : Prop :=
  forall v, data !! "cell" = Some v -> py_truthy v = true -> exists d, v = PyDict d.

(** ** [FocusManager.get_dwell_progress] *)

(** A true division [f / n] of a float by an int: the quotient, or one of
    the two errors the division has. *)
Inductive division :=
| Quotient (q : float)
| ZeroDivisionError
| IntTooLarge.

(** [f / n]: the int is converted, a zero divisor raises
    [ZeroDivisionError], an int beyond the double range [OverflowError]. *)
Definition float_div_int (f : float) (n : Z) : division :=
  match float_of_int n with
  | Ok d => if PrimFloat.eqb d 0 then ZeroDivisionError else Quotient (f / d)%float
  | Raise _ _ => IntTooLarge
  end.

(** What [get_dwell_progress] gives: the pair it returns, or the error of
    its division. *)
Inductive progress :=
| Progress (candidate : option Z) (fraction : float)
| ProgressZeroDivisionError
| ProgressIntTooLarge.

(** [get_dwell_progress]; [clock] is what [time.time()] reads.  The builtin
    [min(1.0, q)] keeps 1.0 unless [q < 1.0]. *)
Definition get_dwell_progress {T : Type} (m : FocusManager T) (clock : float)
  : progress :=
  match _candidate_focus m, _candidate_start_time m with
  | Some candidate, Some start =>
      let now := (clock * 1000)%float in
      let elapsed := (now - start)%float in
      match float_div_int elapsed (dwell_time_ms m) with
      | Quotient q => Progress (Some candidate) (if (q <? 1)%float then q else 1%float)
      | ZeroDivisionError => ProgressZeroDivisionError
      | IntTooLarge => ProgressIntTooLarge
      end
  | _, _ => Progress None 0%float
  end.

(** ** The focus flags of the terminals *)

(** No two terminals carry the focus flag. *)
Definition at_most_one_focused (terminals : list TerminalWidget) : Prop :=
  forall i j ti tj,
    terminals !! i = Some ti -> terminals !! j = Some tj ->
    is_focused_pane ti = true -> is_focused_pane tj = true -> i = j.

(** A grid of four terminals declared with two rows and no column. *)
Definition grid_no_columns : TerminalGridAdapter :=
  {| _terminals := replicate 4 plain_widget; _rows := 2; _cols := 0;
     _on_focus := false; _inv_cols := 0; _inv_rows := 0.5 |}.

(** ** [normalize_to_screen] of [glimpsh/gaze/protocol.py] *)

(** [f > n] for a float [f] and an int [n], compared exactly. *)
Definition float_gt_int (f : float) (n : Z) : bool :=
  match Prim2SF f with
  | S754_nan => false
  | S754_infinity s => negb s
  | S754_zero _ => n <? 0
  | S754_finite s m e =>
      let v := if s then Z.neg m else Z.pos m in
      if 0 <=? e then n <? Z.shiftl v e else Z.shiftl n (- e) <? v
  end.

Definition normalize_to_screen (gaze : GazePoint) (screen_width screen_height : Z)
  : outcome (Z * Z) :=
  let x := gp_x gaze in
  let y := gp_y gaze in
  if float_gt_int x 1 || float_gt_int y 1 then
    px ← int_of_float x;
    py ← int_of_float y;
    Ok (px, py)
  else
    width_f ← float_of_int screen_width;
    px ← int_of_float (x * width_f);
    height_f ← float_of_int screen_height;
    py ← int_of_float (y * height_f);
    Ok (px, py).


(** ** [GazeClient._handle_message] of [glimpsh/gaze/client.py] *)

(** What [_handle_message] reads and writes of a client: which callbacks
    were given, the latest gaze point, and whether a debug file is
    attached. *)
Record GazeClient := {
  on_gaze : bool;
  on_server_info : bool;
  on_error : bool;
  _latest_gaze : option GazePoint;
  _debug_file : bool
}.

(** What [on_error] is called with: the error of the message,
    "Unknown error", or "Message handling error: ..." with the text of the
    exception that was caught. *)
Inductive error_report :=
| ReportedError (e : error_value)
| UnknownError
| MessageHandlingError (m : exc_msg).

(** The calls [_handle_message] makes, in the order it makes them. *)
Inductive client_event :=
| CallOnServerInfo (info : ServerInfo)
| DebugWrite (gaze : GazePoint)
| CallOnGaze (gaze : GazePoint)
| CallOnError (report : error_report).

(** Truth value of a message's error: the texts the parser formats are
    never empty, the mapping's own entry may be anything. *)
Definition error_truthy (e : error_value) : bool :=
  match e with
  | ErrField v => py_truthy v
  | _ => true
  end.

(** The test before the debug line: there was no gaze point yet, or the
    new one is a pixel or more away on an axis. *)
Definition moved_a_pixel (old : option GazePoint) (gaze : GazePoint) : bool :=
  match old with
  | None => true
  | Some old_gaze =>
      float_ge_int (abs (gp_x gaze - gp_x old_gaze)) 1
      || float_ge_int (abs (gp_y gaze - gp_y old_gaze)) 1
  end.

Definition store_gaze (c : GazeClient) (gaze : GazePoint) : GazeClient :=
  {| on_gaze := on_gaze c; on_server_info := on_server_info c;
     on_error := on_error c; _latest_gaze := Some gaze;
     _debug_file := _debug_file c |}.

Section Client.
Context `{PyBuiltins}.

(** [_handle_message]; the callbacks and the debug file are taken not to
    raise. *)
Definition handle_message (c : GazeClient) (raw_message : payload) (now : float)
  : GazeClient * list client_event :=
  match parse_message raw_message now with
  | Ok msg =>
      match msg_type msg, msg_server_info msg, msg_gaze_point msg with
      | HELLO, Some info, _ =>
          (c, if on_server_info c then [CallOnServerInfo info] else [])
      | GAZE_POINT, _, Some gaze =>
          let old_gaze := _latest_gaze c in
          (store_gaze c gaze,
           (if _debug_file c && moved_a_pixel old_gaze gaze
            then [DebugWrite gaze] else [])
           ++ (if on_gaze c then [CallOnGaze gaze] else []))
      | ERROR, _, _ =>
          (c, if on_error c then
                [CallOnError
                   match msg_error msg with
                   | Some e => if error_truthy e then ReportedError e else UnknownError
                   | None => UnknownError
                   end]
              else [])
      | _, _, _ => (c, [])
      end
  | Raise _ m =>
      (c, if on_error c then [CallOnError (MessageHandlingError m)] else [])
  end.
End Client.

(** ** [GazeConfig.get_provider] of [glimpsh/config.py] *)

Record GazeProvider := {
  provider_name : string;
  provider_url : string;
  provider_command : option string
}.

(** [get_provider]; [name] is [None] when no name is given. *)
Definition get_provider (providers : list GazeProvider) (name : option string)
  : option GazeProvider :=
  match providers with
  | [] => None
  | first :: _ =>
      match name with
      | None => Some first
      | Some n => List.find (fun p => String.eqb (provider_name p) n) providers
      end
  end.

(** [_default_providers]. *)
Definition default_providers : list GazeProvider :=
  [ {| provider_name := "eyetrax"; provider_url := "ws://127.0.0.1:8001/";
       provider_command := Some "eyetrax --filter kalman" |} ].

(** ** [GazeState] of [glimpsh/testing/mock_gaze_server.py] *)

(** The fields of [GazeState], with the prefix [gs_]. *)
Record GazeState := {
  gs_x : float;
  gs_y : float;
  gs_screen_width : Z;
  gs_screen_height : Z;
  gs_step : float
}.

(** The builtins [max(a, b)] and [min(a, b)] on floats: the first argument
    unless the second is greater, respectively smaller. *)
Definition py_max (a b : float) : float := if (a <? b)%float then b else a.
Definition py_min (a b : float) : float := if (b <? a)%float then b else a.

(** [GazeState.move]. *)
Definition move (state : GazeState) (direction : string) : GazeState :=
  if String.eqb direction "up" then
    {| gs_x := gs_x state; gs_y := py_max 0 (gs_y state - gs_step state);
       gs_screen_width := gs_screen_width state;
       gs_screen_height := gs_screen_height state; gs_step := gs_step state |}
  else if String.eqb direction "down" then
    {| gs_x := gs_x state; gs_y := py_min 1 (gs_y state + gs_step state);
       gs_screen_width := gs_screen_width state;
       gs_screen_height := gs_screen_height state; gs_step := gs_step state |}
  else if String.eqb direction "left" then
    {| gs_x := py_max 0 (gs_x state - gs_step state); gs_y := gs_y state;
       gs_screen_width := gs_screen_width state;
       gs_screen_height := gs_screen_height state; gs_step := gs_step state |}
  else if String.eqb direction "right" then
    {| gs_x := py_min 1 (gs_x state + gs_step state); gs_y := gs_y state;
       gs_screen_width := gs_screen_width state;
       gs_screen_height := gs_screen_height state; gs_step := gs_step state |}
  else state.

(** [GazeState.to_pixels]. *)
Definition to_pixels (state : GazeState) : outcome (Z * Z) :=
  width_f ← float_of_int (gs_screen_width state);
  px ← int_of_float (gs_x state * width_f);
  height_f ← float_of_int (gs_screen_height state);
  py ← int_of_float (gs_y state * height_f);
  Ok (px, py).

(** [GazeState()] with its default fields. *)
Definition default_gaze_state : GazeState :=
  {| gs_x := 0.5; gs_y := 0.5; gs_screen_width := 1920;
     gs_screen_height := 1080; gs_step := 0.08 |}.

(** * Properties *)

(** ** One step of the dwell rule *)

Section DwellStep.
Context {T : Type} `{FocusTarget T}.
Implicit Types (m : FocusManager T) (p index : Z) (clock : float).

Lemma dwell_already_focused m p clock :
  _current_focus m = Some p ->
  FocusManager.dwell m p clock = (FocusManager.set_candidate m None None, false, []).
Proof.
  intros Hcur. unfold FocusManager.dwell.
  rewrite bool_decide_eq_true_2; [reflexivity | exact Hcur].
Qed.

Lemma dwell_new_candidate m p clock :
  _current_focus m <> Some p ->
  _candidate_focus m <> Some p ->
  FocusManager.dwell m p clock =
    (FocusManager.set_candidate m (Some p) (Some (clock * 1000)%float), false, []).
Proof.
  intros Hcur Hcand. unfold FocusManager.dwell.
  rewrite (bool_decide_eq_false_2 _ Hcur), (bool_decide_eq_false_2 _ Hcand).
  reflexivity.
Qed.

Lemma dwell_waiting m p since clock :
  _current_focus m <> Some p ->
  _candidate_focus m = Some p ->
  _candidate_start_time m = Some (since * 1000)%float ->
  dwell_reached m since clock = false ->
  FocusManager.dwell m p clock = (m, false, []).
Proof.
  intros Hcur Hcand Hstart Hwait. unfold FocusManager.dwell.
  rewrite (bool_decide_eq_false_2 _ Hcur), (bool_decide_eq_true_2 _ Hcand), Hstart.
  unfold dwell_reached in Hwait. simpl. rewrite Hwait. reflexivity.
Qed.

Lemma dwell_commits m p since clock :
  _current_focus m <> Some p ->
  _candidate_focus m = Some p ->
  _candidate_start_time m = Some (since * 1000)%float ->
  dwell_reached m since clock = true ->
  FocusManager.dwell m p clock =
    ((FocusManager.commit m p).1, true, TargetFocusPane p :: notification m p).
Proof.
  intros Hcur Hcand Hstart Hgo. unfold FocusManager.dwell.
  rewrite (bool_decide_eq_false_2 _ Hcur), (bool_decide_eq_true_2 _ Hcand), Hstart.
  unfold dwell_reached in Hgo. simpl. rewrite Hgo. reflexivity.
Qed.

(** A gaze call is its resolution followed by the dwell rule. *)
Lemma deliver_gaze m c clock :
  is_gaze c = true ->
  deliver m c clock =
    r ← resolves m c;
    Ok (match r with
        | None => (FocusManager.set_candidate m None None, false, [])
        | Some p => FocusManager.dwell m p clock
        end).
Proof.
  destruct c as [x y | row col | index]; simpl; intros Hg; try discriminate.
  - unfold FocusManager.update.
    destruct (FocusManager.pane_at m x y) as [[p|]|k e]; reflexivity.
  - unfold FocusManager.update_from_cell.
    destruct (_ || _); reflexivity.
Qed.

Lemma resolves_set_candidate m cand start c :
  resolves (FocusManager.set_candidate m cand start) c = resolves m c.
Proof. destruct c; reflexivity. Qed.

Lemma resolves_commit `{!StableGrid T} m p c :
  resolves (FocusManager.commit m p).1 c = resolves m c.
Proof.
  destruct c as [x y | row col | index]; simpl; [ | | reflexivity].
  - unfold FocusManager.pane_at. simpl. apply get_pane_at_position_focus_pane.
  - rewrite cols_focus_pane, pane_count_focus_pane. reflexivity.
Qed.
End DwellStep.

(** ** Samples that resolve to no pane, or to the focused pane *)

Section IdleSamples.
Context {T : Type} `{FocusTarget T}.
Implicit Types (m : FocusManager T) (P : Z) (clock : float).

(** C3. In every manager state, a gaze sample that resolves to no pane
    (a position outside the viewport for [update], a cell outside the
    pane range for [update_from_cell]) returns normally with [False]:
    the candidate pane and its start time are reset to absent, the
    committed focus and the target are left as they were, and no outward
    call (target [focus_pane], focus-change callback) is made. *)
Theorem no_pane_clears_candidate m c clock :
  is_gaze c = true ->
  resolves m c = Ok None ->
  exists m',
    deliver m c clock = Ok (m', false, [])
    /\ _candidate_focus m' = None
    /\ _candidate_start_time m' = None
    /\ _current_focus m' = _current_focus m
    /\ target m' = target m.
Proof.
  intros Hgaze Hnone.
  exists (FocusManager.set_candidate m None None).
  rewrite (deliver_gaze m c clock Hgaze), Hnone.
  repeat split.
Qed.

Lemma run_focused_pane m P samples :
  _current_focus m = Some P ->
  Forall (gazes_at m P) samples ->
  run m samples =
    Ok (match samples with
        | [] => m
        | _ => FocusManager.set_candidate m None None
        end, replicate (length samples) false, []).
Proof.
  intros Hcur Hall. revert m Hcur Hall.
  induction samples as [|[c clock] rest IH]; intros m Hcur Hall.
  - reflexivity.
  - inversion Hall as [|? ? [Hgaze Hres] Hrest]; subst. simpl in Hgaze, Hres.
    cbn [run]. rewrite (deliver_gaze m c clock Hgaze), Hres. cbn.
    rewrite (dwell_already_focused m P clock Hcur). cbn.
    rewrite (IH (FocusManager.set_candidate m None None)).
    + destruct rest; reflexivity.
    + exact Hcur.
    + eapply Forall_impl; [exact Hrest|].
      intros [c' t'] [? ?]. split; [assumption|]. simpl.
      rewrite resolves_set_candidate. assumption.
Qed.

(** C4. From every manager state whose committed focus is pane [P], any
    sequence of gaze samples that all resolve to [P] makes no outward
    call at all (neither the target's [focus_pane] nor the focus-change
    callback), returns [False] for every sample, keeps the committed
    focus, and leaves the dwell candidate cleared. *)
Theorem refocus_is_idle m P c clock rest :
  _current_focus m = Some P ->
  Forall (gazes_at m P) ((c, clock) :: rest) ->
  exists m',
    run m ((c, clock) :: rest) = Ok (m', replicate (S (length rest)) false, [])
    /\ _current_focus m' = Some P
    /\ _candidate_focus m' = None
    /\ _candidate_start_time m' = None
    /\ target m' = target m.
Proof.
  intros Hcur Hall.
  exists (FocusManager.set_candidate m None None).
  rewrite (run_focused_pane m P _ Hcur Hall).
  repeat split. exact Hcur.
Qed.
End IdleSamples.

(** ** Dwell: commit after the threshold, restart after a deviation *)

Section Dwell.
Context {T : Type} `{StableGrid T}.
Implicit Types (m : FocusManager T) (P Q : Z) (clock since : float).

Lemma gazes_at_set_candidate m P cand start s :
  gazes_at m P s -> gazes_at (FocusManager.set_candidate m cand start) P s.
Proof.
  intros [Hg Hr]. split; [exact Hg|].
  rewrite resolves_set_candidate. exact Hr.
Qed.

Lemma gazes_at_commit m P Q s :
  gazes_at m P s -> gazes_at (FocusManager.commit m Q).1 P s.
Proof.
  intros [Hg Hr]. split; [exact Hg|].
  rewrite resolves_commit. exact Hr.
Qed.

(** While the candidate is [P] and the threshold is not reached, samples
    on [P] change nothing. *)
Lemma run_waiting m P since samples :
  _current_focus m <> Some P ->
  _candidate_focus m = Some P ->
  _candidate_start_time m = Some (since * 1000)%float ->
  Forall (gazes_at m P) samples ->
  Forall (fun s => dwell_reached m since s.2 = false) samples ->
  run m samples = Ok (m, replicate (length samples) false, []).
Proof.
  intros Hcur Hcand Hstart Hall Hwait.
  induction samples as [|[c clock] rest IH]; [reflexivity|].
  apply Forall_cons in Hall as [[Hg Hr] Hall].
  apply Forall_cons in Hwait as [Hw Hwait].
  simpl in Hg, Hr, Hw. cbn [run].
  rewrite (deliver_gaze m c clock Hg), Hr. cbn.
  rewrite (dwell_waiting m P since clock Hcur Hcand Hstart Hw). cbn.
  rewrite (IH Hall Hwait). reflexivity.
Qed.

(** The run that starts a candidate for [P] and waits. *)
Lemma run_start_and_wait m P c0 t0 early :
  _current_focus m <> Some P ->
  _candidate_focus m <> Some P ->
  Forall (gazes_at m P) ((c0, t0) :: early) ->
  Forall (fun s => dwell_reached m t0 s.2 = false) early ->
  run m ((c0, t0) :: early) =
    Ok (FocusManager.set_candidate m (Some P) (Some (t0 * 1000)%float),
        replicate (S (length early)) false, []).
Proof.
  intros Hcur Hcand Hall Hwait.
  apply Forall_cons in Hall as [[Hg Hr] Hall]. simpl in Hg, Hr.
  cbn [run]. rewrite (deliver_gaze m c0 t0 Hg), Hr. cbn.
  rewrite (dwell_new_candidate m P t0 Hcur Hcand). cbn.
  rewrite (run_waiting _ P t0 early); [reflexivity| | | | |];
    try reflexivity; try assumption.
Qed.

Lemma run_app m m1 m2 xs ys r1 r2 e1 e2 :
  run m xs = Ok (m1, r1, e1) ->
  run m1 ys = Ok (m2, r2, e2) ->
  run m (xs ++ ys) = Ok (m2, r1 ++ r2, e1 ++ e2).
Proof.
  revert m r1 e1. induction xs as [|[c clock] xs IH]; intros m r1 e1 Hx Hy.
  - injection Hx as <- <- <-. exact Hy.
  - cbn [run app] in *.
    destruct (deliver m c clock) as [[[ma ra] ea]|k e]; [|discriminate].
    cbn in *.
    destruct (run ma xs) as [[[mb rb] eb]|k e] eqn:Hrun; [|discriminate].
    cbn in Hx. injection Hx as <- <- <-.
    rewrite (IH ma rb eb Hrun Hy). cbn. rewrite app_assoc. reflexivity.
Qed.

(** Start a candidate, wait, commit at the first sample that reaches the
    threshold, and stay idle afterwards. *)
Lemma run_dwell m P c0 t0 early ck tk later :
  _current_focus m <> Some P ->
  _candidate_focus m <> Some P ->
  Forall (gazes_at m P) ((c0, t0) :: early ++ (ck, tk) :: later) ->
  Forall (fun s => dwell_reached m t0 s.2 = false) early ->
  dwell_reached m t0 tk = true ->
  run m ((c0, t0) :: early ++ (ck, tk) :: later) =
    Ok (committed m P,
        replicate (S (length early)) false ++ true :: replicate (length later) false,
        TargetFocusPane P :: notification m P).
Proof.
  intros Hcur Hcand Hall Hwait Hgo.
  change ((c0, t0) :: early ++ (ck, tk) :: later)
    with (((c0, t0) :: early) ++ (ck, tk) :: later) in *.
  apply Forall_app in Hall as [Hpre Hpost].
  apply Forall_cons in Hpost as [[Hg Hr] Hlater]. simpl in Hg, Hr.
  set (m1 := FocusManager.set_candidate m (Some P) (Some (t0 * 1000)%float)).
  eapply (run_app m m1 (committed m P) _ _ _ (true :: _) [] _).
  - apply run_start_and_wait; assumption.
  - cbn [run]. rewrite (deliver_gaze m1 ck tk Hg).
    unfold m1. rewrite resolves_set_candidate, Hr. cbn.
    rewrite (dwell_commits _ P t0 tk); try reflexivity; try assumption. cbn.
    rewrite (run_focused_pane _ P later).
    + cbn. rewrite app_nil_r. f_equal. f_equal. f_equal.
      destruct later; reflexivity.
    + reflexivity.
    + eapply Forall_impl; [exact Hlater|]. intros s Hs.
      apply (gazes_at_commit m1 P P), (gazes_at_set_candidate m P), Hs.
Qed.
(** C1. Let a run of consecutive gaze samples (through [update] or
    [update_from_cell]) all resolve to one pane [P] that is not the
    committed focus, the run beginning where [P] is not yet the candidate.
    While the elapsed time since the run's first sample stays below the
    dwell threshold nothing changes: every call returns [False], no outward
    call is made, the focus is the old one and [P] is the candidate.  At
    the first sample whose elapsed time is at or above the threshold the
    focus commits to [P], once in the whole run: that call returns [True],
    the focus becomes [P], the candidate and its start time are cleared,
    the target's [focus_pane(P)] is called, then the focus-change callback
    (when one was given) with (old focus, [P]); the samples after it change
    nothing. *)
Theorem dwell_commit m P c0 t0 early ck tk later :
  _current_focus m <> Some P ->
  _candidate_focus m <> Some P ->
  Forall (gazes_at m P) ((c0, t0) :: early ++ (ck, tk) :: later) ->
  Forall (fun s => dwell_reached m t0 s.2 = false) early ->
  dwell_reached m t0 tk = true ->
  (exists m1,
     run m ((c0, t0) :: early) = Ok (m1, replicate (S (length early)) false, [])
     /\ _current_focus m1 = _current_focus m
     /\ _candidate_focus m1 = Some P
     /\ target m1 = target m)
  /\ (exists m2,
       run m ((c0, t0) :: early ++ (ck, tk) :: later) =
         Ok (m2,
             replicate (S (length early)) false ++ true :: replicate (length later) false,
             TargetFocusPane P
               :: (if on_focus_change m then [FocusChange (_current_focus m) P] else []))
       /\ _current_focus m2 = Some P
       /\ _candidate_focus m2 = None
       /\ _candidate_start_time m2 = None
       /\ target m2 = focus_pane (target m) P).
Proof.
  intros Hcur Hcand Hall Hwait Hgo. split.
  - exists (FocusManager.set_candidate m (Some P) (Some (t0 * 1000)%float)).
    split; [|repeat split].
    apply run_start_and_wait; try assumption.
    change ((c0, t0) :: early ++ (ck, tk) :: later)
      with (((c0, t0) :: early) ++ (ck, tk) :: later) in Hall.
    apply Forall_app in Hall. tauto.
  - exists (committed m P). split; [|repeat split].
    apply run_dwell; assumption.
Qed.

(** What a sample on another pane [Q] leaves of a candidate [P]: no
    candidate, or the candidate [Q]; never [P]. *)
Lemma deviation_drops_candidate m P Q cq tq :
  _candidate_focus m = Some P ->
  Q <> P ->
  gazes_at m Q (cq, tq) ->
  exists cand start,
    deliver m cq tq = Ok (FocusManager.set_candidate m cand start, false, [])
    /\ cand <> Some P.
Proof.
  intros Hcand Hne [Hg Hr]. simpl in Hg, Hr.
  rewrite (deliver_gaze m cq tq Hg), Hr. cbn.
  destruct (decide (_current_focus m = Some Q)) as [Hfoc|Hfoc].
  - exists None, None. rewrite (dwell_already_focused m Q tq Hfoc). split; congruence.
  - exists (Some Q), (Some (tq * 1000)%float).
    rewrite (dwell_new_candidate m Q tq Hfoc); [split; congruence|].
    rewrite Hcand. congruence.
Qed.

(** C2. Let pane [P] be the dwell candidate, whatever its start time and
    however long it has been dwelt on.  One sample that resolves to a
    different pane [Q], followed by samples that resolve to [P] again,
    restarts the timer for [P] at the first of those samples: nothing
    commits while the elapsed time since that sample is below the
    threshold, and [P] commits at the first sample at or above it.  The
    start time the candidate had before the [Q] sample appears nowhere in
    the outcome. *)
Theorem deviation_restarts_dwell m P Q cq tq c0 t0 early ck tk later :
  _candidate_focus m = Some P ->
  _current_focus m <> Some P ->
  Q <> P ->
  gazes_at m Q (cq, tq) ->
  Forall (gazes_at m P) ((c0, t0) :: early ++ (ck, tk) :: later) ->
  Forall (fun s => dwell_reached m t0 s.2 = false) early ->
  dwell_reached m t0 tk = true ->
  run m ((cq, tq) :: (c0, t0) :: early) =
    Ok (FocusManager.set_candidate m (Some P) (Some (t0 * 1000)%float),
        replicate (S (S (length early))) false, [])
  /\ run m ((cq, tq) :: (c0, t0) :: early ++ (ck, tk) :: later) =
       Ok (committed m P,
           replicate (S (S (length early))) false
             ++ true :: replicate (length later) false,
           TargetFocusPane P :: notification m P).
Proof.
  intros Hcand Hcur Hne HQ Hall Hwait Hgo.
  destruct (deviation_drops_candidate m P Q cq tq Hcand Hne HQ)
    as (cand & start & Hstep & Hdrop).
  set (m1 := FocusManager.set_candidate m cand start).
  assert (Hall1 : Forall (gazes_at m1 P) ((c0, t0) :: early ++ (ck, tk) :: later)).
  { eapply Forall_impl; [exact Hall|]. intros s. apply gazes_at_set_candidate. }
  split.
  - change ((cq, tq) :: (c0, t0) :: early) with ([(cq, tq)] ++ (c0, t0) :: early).
    apply (run_app m m1 _ _ _ [false] _ [] []).
    + cbn [run]. rewrite Hstep. reflexivity.
    + apply (run_start_and_wait m1 P c0 t0 early); try assumption.
      change ((c0, t0) :: early ++ (ck, tk) :: later)
        with (((c0, t0) :: early) ++ (ck, tk) :: later) in Hall1.
      apply Forall_app in Hall1. tauto.
  - change ((cq, tq) :: (c0, t0) :: early ++ (ck, tk) :: later)
      with ([(cq, tq)] ++ (c0, t0) :: early ++ (ck, tk) :: later).
    apply (run_app m m1 _ _ _ [false] _ [] _).
    + cbn [run]. rewrite Hstep. reflexivity.
    + apply (run_dwell m1 P c0 t0 early ck tk later); assumption.
Qed.

End Dwell.

(** ** The terminal grid as a focus target *)

Lemma adapter_focus_pane_terminals a i :
  length (_terminals (TerminalGridAdapter.focus_pane a i).1) = length (_terminals a).
Proof.
  unfold TerminalGridAdapter.focus_pane.
  destruct (_ || _); simpl; [reflexivity|]. apply length_imap.
Qed.

Lemma adapter_focus_pane_shape a i :
  _rows (TerminalGridAdapter.focus_pane a i).1 = _rows a
  /\ _cols (TerminalGridAdapter.focus_pane a i).1 = _cols a.
Proof.
  unfold TerminalGridAdapter.focus_pane. destruct (_ || _); split; reflexivity.
Qed.

#[global] Instance TerminalGridAdapter_stable : StableGrid TerminalGridAdapter.
Proof.
  split.
  - intros a i. simpl. unfold TerminalGridAdapter.pane_count.
    rewrite adapter_focus_pane_terminals. reflexivity.
  - intros a i. simpl. apply adapter_focus_pane_shape.
  - intros a i x y. simpl. unfold TerminalGridAdapter.get_pane_at_position.
    destruct (adapter_focus_pane_shape a i) as [-> ->].
    rewrite adapter_focus_pane_terminals. reflexivity.
Qed.

Lemma manager_2x2_constructed :
  FocusManager.init grid_2x2 80 24 default_dwell_time_ms true = Ok manager_2x2
  /\ TerminalGridAdapter.init (replicate 4 plain_widget) 2 2 false = Ok grid_2x2.
Proof. split; vm_compute; reflexivity. Qed.

(** ** The dwell properties on the 2x2 grid *)

(** A candidate for pane 1 is in flight; the position (100, 5) is right of
    the 80 columns wide screen. *)
Lemma no_pane_clears_candidate_witness :
  exists m',
    deliver (FocusManager.set_candidate manager_2x2 (Some 1) (Some 0%float))
      (Update 100 5) 0.05 = Ok (m', false, [])
    /\ _candidate_focus m' = None
    /\ _candidate_start_time m' = None
    /\ _current_focus m' = Some 0
    /\ target m' = grid_2x2.
Proof.
  apply (no_pane_clears_candidate
           (FocusManager.set_candidate manager_2x2 (Some 1) (Some 0%float))).
  - reflexivity.
  - vm_compute. reflexivity.
Defined.

(** Pane 0 is focused; both samples look at pane 0. *)
Lemma refocus_is_idle_witness :
  exists m',
    run manager_2x2 [(Update 10 5, 0%float); (UpdateFromCell 0 0, 0.05%float)]
      = Ok (m', [false; false], [])
    /\ _current_focus m' = Some 0
    /\ _candidate_focus m' = None
    /\ _candidate_start_time m' = None
    /\ target m' = grid_2x2.
Proof.
  apply (refocus_is_idle manager_2x2 0).
  - reflexivity.
  - repeat constructor; vm_compute; reflexivity.
Defined.

(** Threshold 200 ms; samples on pane 1 at 0, 50, 150, 210 and 500 ms: the
    focus commits at the 210 ms sample. *)
Lemma dwell_commit_witness :
  exists m2,
    run manager_2x2
      [(Update 60 5, 0%float); (UpdateFromCell 0 1, 0.05%float);
       (Update 60 5, 0.15%float); (Update 60 5, 0.21%float);
       (UpdateFromCell 0 1, 0.5%float)]
      = Ok (m2, [false; false; false; true; false],
            [TargetFocusPane 1; FocusChange (Some 0) 1])
    /\ _current_focus m2 = Some 1
    /\ _candidate_focus m2 = None
    /\ _candidate_start_time m2 = None
    /\ target m2 = focus_pane grid_2x2 1.
Proof.
  apply (dwell_commit manager_2x2 1 (Update 60 5) 0%float
           [(UpdateFromCell 0 1, 0.05%float); (Update 60 5, 0.15%float)]
           (Update 60 5) 0.21%float [(UpdateFromCell 0 1, 0.5%float)]).
  - discriminate.
  - discriminate.
  - repeat constructor; vm_compute; reflexivity.
  - repeat constructor; vm_compute; reflexivity.
  - vm_compute. reflexivity.
Defined.

(** Pane 1 has been the candidate since 0 ms; a glance at pane 2 at 190 ms;
    pane 1 again at 200, 300 and 410 ms.  The 300 ms sample does not
    commit, the 410 ms sample does. *)
Lemma deviation_restarts_dwell_witness :
  run (FocusManager.set_candidate manager_2x2 (Some 1) (Some 0%float))
    [(UpdateFromCell 1 0, 0.19%float); (Update 60 5, 0.2%float);
     (Update 60 5, 0.3%float)]
    = Ok (FocusManager.set_candidate manager_2x2 (Some 1) (Some (0.2 * 1000)%float),
          [false; false; false], [])
  /\ run (FocusManager.set_candidate manager_2x2 (Some 1) (Some 0%float))
       [(UpdateFromCell 1 0, 0.19%float); (Update 60 5, 0.2%float);
        (Update 60 5, 0.3%float); (UpdateFromCell 0 1, 0.41%float)]
       = Ok (committed manager_2x2 1, [false; false; false; true],
             [TargetFocusPane 1; FocusChange (Some 0) 1]).
Proof.
  apply (deviation_restarts_dwell
           (FocusManager.set_candidate manager_2x2 (Some 1) (Some 0%float))
           1 2 (UpdateFromCell 1 0) 0.19%float (Update 60 5) 0.2%float
           [(Update 60 5, 0.3%float)] (UpdateFromCell 0 1) 0.41%float []).
  - reflexivity.
  - discriminate.
  - lia.
  - split; vm_compute; reflexivity.
  - repeat constructor; vm_compute; reflexivity.
  - repeat constructor; vm_compute; reflexivity.
  - vm_compute. reflexivity.
Defined.

(** ** Signs of float products *)

Lemma binary_round_aux_not_negative mx ex lx :
  not_negative (binary_round_aux prec emax false mx ex lx).
Proof.
  unfold binary_round_aux.
  destruct (shr_fexp prec emax mx ex lx) as [mrs' e'].
  destruct (shr_fexp prec emax _ e' loc_Exact) as [mrs'' e''].
  destruct (shr_m mrs''); [exact I| |exact I].
  destruct (e'' <=? emax - prec); exact I.
Qed.

Lemma binary_normalize_not_negative n :
  0 <= n -> not_negative (binary_normalize prec emax n 0 false).
Proof.
  intros Hn. destruct n as [|p|p]; [exact I| |lia].
  unfold binary_normalize, binary_round.
  destruct (shl_align _ _ _) as [mz ez].
  apply binary_round_aux_not_negative.
Qed.

Lemma SFmul_not_negative a b :
  not_negative a -> not_negative b -> not_negative (SFmul prec emax a b).
Proof.
  destruct a as [[]|[]| |[] ma ea], b as [[]|[]| |[] mb eb];
    simpl; try tauto; intros _ _; apply binary_round_aux_not_negative.
Qed.

Lemma leb_zero_not_negative x :
  (0 <=? x)%float = true -> not_negative (Prim2SF x).
Proof.
  rewrite FloatAxioms.leb_spec.
  change (Prim2SF 0) with (S754_zero false).
  destruct (Prim2SF x) as [s|[]| |[] m e]; simpl; try tauto; discriminate.
Qed.

(** Below 2^63 the conversion of an int is the primitive conversion of a
    machine integer, whose specification gives its value. *)
Lemma Prim2SF_float_of_int n c :
  0 <= n < 2 ^ 63 ->
  float_of_int n = Ok c ->
  Prim2SF c = binary_normalize prec emax n 0 false.
Proof.
  intros Hn. unfold float_of_int.
  assert (Hsf : binary_normalize prec emax n 0 false
                = Prim2SF (of_uint63 (Uint63.of_Z n))).
  { rewrite FloatAxioms.of_uint63_spec, Uint63.of_Z_spec, Z.mod_small; [reflexivity|].
    exact Hn. }
  intros Hc.
  assert (c = SF2Prim (binary_normalize prec emax n 0 false)) as ->.
  { destruct (binary_normalize prec emax n 0 false); congruence. }
  rewrite Hsf at 1. rewrite SF2Prim_Prim2SF. symmetry. exact Hsf.
Qed.

Lemma mul_not_negative x n c :
  0 <= n < 2 ^ 63 ->
  (0 <=? x)%float = true ->
  float_of_int n = Ok c ->
  not_negative (Prim2SF (x * c)).
Proof.
  intros Hn Hx Hc. rewrite FloatAxioms.mul_spec. apply SFmul_not_negative.
  - apply leb_zero_not_negative, Hx.
  - rewrite (Prim2SF_float_of_int n c Hn Hc).
    apply binary_normalize_not_negative. lia.
Qed.

(** On a float that is not below zero, truncation is the floor. *)
Lemma floor_of_float_not_negative f :
  not_negative (Prim2SF f) -> floor_of_float f = int_of_float f.
Proof.
  unfold floor_of_float, int_of_float.
  destruct (Prim2SF f) as [s|s| |[] m e]; simpl; try reflexivity. tauto.
Qed.

Lemma int_of_float_not_negative f v :
  not_negative (Prim2SF f) -> int_of_float f = Ok v -> 0 <= v.
Proof.
  unfold int_of_float.
  destruct (Prim2SF f) as [s|s| |[] m e]; simpl; try discriminate; try tauto.
  - intros _ [= <-]. lia.
  - intros _ [= <-]. apply Z.shiftl_nonneg. lia.
Qed.

(** ** Grid addressing *)

Lemma clamp_is_min v n : (if n <=? v then n - 1 else v) = Z.min v (n - 1).
Proof. destruct (Z.leb_spec n v); lia. Qed.

(** C8. For a grid of [rows] by [cols] (each below 2^63),
    [get_pane_at_position] is the resolution rule of the specification: a
    ratio outside [0,1] on either axis gives absent; otherwise
    [col = floor(x_ratio * cols)] and [row = floor(y_ratio * rows)], each
    clamped to [cols - 1] / [rows - 1], [index = row * cols + col], and
    absent when the index is not below the pane count.  On the 2x2 grid of
    four panes, (0.999, 0.999) resolves to pane 3, (0.0, 0.0) to pane 0 and
    (1.5, 0.2) to absent. *)
Theorem grid_position_resolution a x_ratio y_ratio :
  0 <= _rows a < 2 ^ 63 ->
  0 <= _cols a < 2 ^ 63 ->
  TerminalGridAdapter.get_pane_at_position a x_ratio y_ratio
    = resolve_position (_rows a) (_cols a) (TerminalGridAdapter.pane_count a)
        x_ratio y_ratio
  /\ TerminalGridAdapter.get_pane_at_position grid_2x2 0.999 0.999 = Ok (Some 3)
  /\ TerminalGridAdapter.get_pane_at_position grid_2x2 0 0 = Ok (Some 0)
  /\ TerminalGridAdapter.get_pane_at_position grid_2x2 1.5 0.2 = Ok None.
Proof.
  intros Hrows Hcols.
  split; [|repeat split; vm_compute; reflexivity].
  unfold TerminalGridAdapter.get_pane_at_position, resolve_position,
    in_unit_interval, TerminalGridAdapter.pane_count.
  destruct (0 <=? x_ratio)%float eqn:Hx0; [|cbn; reflexivity].
  destruct (x_ratio <=? 1)%float; [|cbn; reflexivity].
  destruct (0 <=? y_ratio)%float eqn:Hy0; [|cbn; reflexivity].
  destruct (y_ratio <=? 1)%float; [|cbn; reflexivity].
  cbn [andb negb orb].
  destruct (float_of_int (_cols a)) as [cols_f|k e] eqn:Hcf; [|reflexivity].
  cbn [mbind outcome_bind].
  rewrite (floor_of_float_not_negative (x_ratio * cols_f))
    by (apply (mul_not_negative _ (_cols a)); assumption).
  destruct (int_of_float (x_ratio * cols_f)) as [col|k e]; [|reflexivity].
  cbn [mbind outcome_bind].
  destruct (float_of_int (_rows a)) as [rows_f|k e] eqn:Hrf; [|reflexivity].
  cbn [mbind outcome_bind].
  rewrite (floor_of_float_not_negative (y_ratio * rows_f))
    by (apply (mul_not_negative _ (_rows a)); assumption).
  destruct (int_of_float (y_ratio * rows_f)) as [row|k e]; [|reflexivity].
  cbn [mbind outcome_bind].
  rewrite !clamp_is_min. reflexivity.
Qed.

(** The boundary ratio 1.0 on both axes: floor gives column 2 and row 2,
    the clamp brings both back to 1, the last pane. *)
Lemma grid_position_resolution_witness :
  TerminalGridAdapter.get_pane_at_position grid_2x2 1 1
    = resolve_position 2 2 4 1 1
  /\ TerminalGridAdapter.get_pane_at_position grid_2x2 0.999 0.999 = Ok (Some 3)
  /\ TerminalGridAdapter.get_pane_at_position grid_2x2 0 0 = Ok (Some 0)
  /\ TerminalGridAdapter.get_pane_at_position grid_2x2 1.5 0.2 = Ok None.
Proof.
  apply (grid_position_resolution grid_2x2 1 1); simpl; lia.
Defined.

(** On a grid with at least one row and one column, a position resolves
    to no pane or to an existing pane. *)
Lemma adapter_resolves_in_range a :
  0 < _rows a < 2 ^ 63 ->
  0 < _cols a < 2 ^ 63 ->
  resolves_in_range a.
Proof.
  intros Hrows Hcols x y i. simpl.
  unfold TerminalGridAdapter.get_pane_at_position, TerminalGridAdapter.pane_count.
  destruct (0 <=? x)%float eqn:Hx0; [|cbn; discriminate].
  destruct (x <=? 1)%float; [|cbn; discriminate].
  destruct (0 <=? y)%float eqn:Hy0; [|cbn; discriminate].
  destruct (y <=? 1)%float; [|cbn; discriminate].
  cbn [andb negb].
  destruct (float_of_int (_cols a)) as [cols_f|k e] eqn:Hcf; [|discriminate].
  cbn [mbind outcome_bind].
  destruct (int_of_float (x * cols_f)) as [col|k e] eqn:Hcol; [|discriminate].
  cbn [mbind outcome_bind].
  destruct (float_of_int (_rows a)) as [rows_f|k e] eqn:Hrf; [|discriminate].
  cbn [mbind outcome_bind].
  destruct (int_of_float (y * rows_f)) as [row|k e] eqn:Hrow; [|discriminate].
  cbn [mbind outcome_bind].
  assert (0 <= col).
  { eapply int_of_float_not_negative; [|exact Hcol].
    eapply (mul_not_negative x (_cols a)); [lia|exact Hx0|exact Hcf]. }
  assert (0 <= row).
  { eapply int_of_float_not_negative; [|exact Hrow].
    eapply (mul_not_negative y (_rows a)); [lia|exact Hy0|exact Hrf]. }
  rewrite !clamp_is_min.
  destruct (Z.leb_spec (Z.of_nat (length (_terminals a)))
              (Z.min row (_rows a - 1) * _cols a + Z.min col (_cols a - 1)));
    [discriminate|].
  intros [= <-]. split; [|assumption].
  apply Z.add_nonneg_nonneg; [apply Z.mul_nonneg_nonneg|]; lia.
Qed.

(** ** The committed focus over the life of a manager *)

Section CommittedFocus.
Context {T : Type} `{StableGrid T}.
Implicit Types (m : FocusManager T) (p index : Z) (clock : float).

(** The dwell rule either touches the candidate only, or commits. *)
Lemma dwell_cases m p clock :
  (exists cand start,
     FocusManager.dwell m p clock
       = (FocusManager.set_candidate m cand start, false, []))
  \/ FocusManager.dwell m p clock = (m, false, [])
  \/ FocusManager.dwell m p clock
       = (committed m p, true, TargetFocusPane p :: notification m p).
Proof.
  unfold FocusManager.dwell.
  case_bool_decide; [left; eauto|].
  case_bool_decide; cbn [negb]; [|left; eauto].
  destruct (_candidate_start_time m) as [start|]; [|right; left; reflexivity].
  destruct (float_ge_int _ _); [right; right|right; left]; reflexivity.
Qed.

(** What a call can do to a manager: nothing, reset or move the candidate,
    or commit a pane that the target has. *)
Lemma deliver_cases m c clock m' changed evs :
  resolves_in_range (target m) ->
  deliver m c clock = Ok (m', changed, evs) ->
  (changed = false /\ evs = []
   /\ _current_focus m' = _current_focus m /\ target m' = target m)
  \/ (exists p, 0 <= p < pane_count (target m)
        /\ m' = committed m p /\ changed = true
        /\ evs = TargetFocusPane p :: notification m p).
Proof.
  intros Hrange Hstep.
  assert (Hdwell : forall p, 0 <= p < pane_count (target m) ->
            Ok (FocusManager.dwell m p clock) = Ok (m', changed, evs) ->
            (changed = false /\ evs = []
             /\ _current_focus m' = _current_focus m /\ target m' = target m)
            \/ (exists p, 0 <= p < pane_count (target m)
                  /\ m' = committed m p /\ changed = true
                  /\ evs = TargetFocusPane p :: notification m p)).
  { intros p Hp Heq.
    destruct (dwell_cases m p clock) as [(cand & start & Hd)|[Hd|Hd]];
      rewrite Hd in Heq; injection Heq as <- <- <-.
    - left. repeat split.
    - left. repeat split.
    - right. exists p. repeat split; lia. }
  destruct c as [x y|row col|index]; simpl in Hstep.
  - unfold FocusManager.update in Hstep.
    destruct (FocusManager.pane_at m x y) as [[p|]|k e] eqn:Hres;
      cbn in Hstep; [| |discriminate].
    + apply (Hdwell p); [|exact Hstep].
      unfold FocusManager.pane_at in Hres. eapply Hrange, Hres.
    + injection Hstep as <- <- <-. left. repeat split.
  - unfold FocusManager.update_from_cell in Hstep.
    destruct (row * cols (target m) + col <? 0) eqn:Hlo;
      destruct (pane_count (target m) <=? row * cols (target m) + col) eqn:Hhi;
      cbn [orb] in Hstep;
      try (injection Hstep as <- <- <-; left; repeat split; fail).
    apply (Hdwell (row * cols (target m) + col)); [lia|exact Hstep].
  - unfold FocusManager.focus_pane in Hstep.
    destruct (index <? 0) eqn:Hlo;
      destruct (pane_count (target m) <=? index) eqn:Hhi;
      cbn [orb] in Hstep;
      try (injection Hstep as <- <- <-; left; repeat split; fail).
    case_bool_decide; injection Hstep as <- <- <-.
    + left. repeat split.
    + right. exists index. repeat split; lia.
Qed.

Lemma resolves_in_range_focus_pane (t : T) p :
  resolves_in_range t -> resolves_in_range (focus_pane t p).
Proof.
  intros Hrange x y i.
  rewrite get_pane_at_position_focus_pane, pane_count_focus_pane. apply Hrange.
Qed.

Lemma focus_present_deliver m c clock m' changed evs :
  focus_present m ->
  deliver m c clock = Ok (m', changed, evs) ->
  focus_present m'.
Proof.
  intros [Hrange (i & Hi & Hvalid)] Hstep.
  destruct (deliver_cases m c clock m' changed evs Hrange Hstep)
    as [(_ & _ & Hcur & Htgt)|(p & Hp & -> & _)].
  - split; [rewrite Htgt; exact Hrange|].
    exists i. rewrite Hcur, Htgt. split; assumption.
  - split; [apply resolves_in_range_focus_pane, Hrange|].
    exists p. split; [reflexivity|]. right. simpl.
    rewrite pane_count_focus_pane. exact Hp.
Qed.

Lemma focus_present_run cs : forall m m' results evs,
  focus_present m ->
  run m cs = Ok (m', results, evs) ->
  focus_present m'.
Proof.
  induction cs as [|[c clock] rest IH]; intros m m' results evs Hinv Hrun.
  - injection Hrun as <- _ _. exact Hinv.
  - cbn [run] in Hrun.
    destruct (deliver m c clock) as [[[m1 r1] e1]|k e] eqn:Hstep; [|discriminate].
    cbn in Hrun.
    destruct (run m1 rest) as [[[m2 r2] e2]|k e] eqn:Hrest; [|discriminate].
    cbn in Hrun. injection Hrun as <- _ _.
    eapply IH; [|exact Hrest].
    eapply focus_present_deliver; eassumption.
Qed.

(** As long as every call returned [False], the focus is the one the run
    began with and no outward call was made. *)
Lemma run_without_commit cs : forall m m' results evs,
  resolves_in_range (target m) ->
  run m cs = Ok (m', results, evs) ->
  Forall (eq false) results ->
  _current_focus m' = _current_focus m /\ evs = [] /\ target m' = target m.
Proof.
  induction cs as [|[c clock] rest IH]; intros m m' results evs Hrange Hrun Hall.
  - injection Hrun as <- _ <-. repeat split.
  - cbn [run] in Hrun.
    destruct (deliver m c clock) as [[[m1 r1] e1]|k e] eqn:Hstep; [|discriminate].
    cbn in Hrun.
    destruct (run m1 rest) as [[[m2 r2] e2]|k e] eqn:Hrest; [|discriminate].
    cbn in Hrun. injection Hrun as <- <- <-.
    apply Forall_cons in Hall as [<- Hall].
    destruct (deliver_cases m c clock m1 false e1 Hrange Hstep)
      as [(_ & -> & Hcur & Htgt)|(p & _ & _ & Habs & _)]; [|discriminate].
    destruct (IH m1 m2 r2 e2) as (Hcur' & -> & Htgt'); try assumption.
    { rewrite Htgt. exact Hrange. }
    repeat split; congruence.
Qed.

(** C5, as the code has it. The committed focus is never absent: a
    manager is constructed with focus 0, the focus stays 0 until the first
    call that commits (returns [True]), and after any sequence of
    [update], [update_from_cell] and [focus_pane] calls it is 0 or a valid
    pane index in [0, pane_count), for a target that resolves positions to
    its own panes only. *)
Theorem current_focus_never_absent (tgt : T) width height dwell callback
    m0 cs m results evs :
  resolves_in_range tgt ->
  FocusManager.init tgt width height dwell callback = Ok m0 ->
  run m0 cs = Ok (m, results, evs) ->
  _current_focus m0 = Some 0
  /\ (Forall (eq false) results -> _current_focus m = Some 0)
  /\ exists i, _current_focus m = Some i
       /\ (i = 0 \/ 0 <= i < pane_count (target m)).
Proof.
  intros Hrange Hinit Hrun.
  assert (Hm0 : target m0 = tgt /\ _current_focus m0 = Some 0).
  { unfold FocusManager.init in Hinit.
    destruct (inverse_or_zero width) as [inv_w|k e]; [|discriminate].
    destruct (inverse_or_zero height) as [inv_h|k e]; [|discriminate].
    cbn in Hinit. injection Hinit as <-. split; reflexivity. }
  destruct Hm0 as [Htgt Hcur]. rewrite <- Htgt in Hrange.
  split; [exact Hcur|]. split.
  - intros Hall.
    destruct (run_without_commit cs m0 m results evs Hrange Hrun Hall) as (-> & _).
    exact Hcur.
  - eapply (focus_present_run cs m0 m results evs); [|exact Hrun].
    split; [exact Hrange|]. exists 0. split; [exact Hcur|left; reflexivity].
Qed.

End CommittedFocus.

(** A new manager on the 2x2 grid already has a focus: pane 0. *)
Lemma current_focus_present_at_construction :
  exists m,
    FocusManager.init grid_2x2 80 24 default_dwell_time_ms true = Ok m
    /\ _current_focus m = Some 0
    /\ _current_focus m <> None.
Proof.
  exists manager_2x2. split; [vm_compute; reflexivity|].
  split; [reflexivity|discriminate].
Qed.

(** The 2x2 manager after a glance at pane 1, a dwell on pane 3 and a
    manual focus of pane 2. *)
Lemma current_focus_never_absent_witness :
  let m := committed (committed manager_2x2 3) 2 in
  let results := [false; false; true; true] in
  _current_focus manager_2x2 = Some 0
  /\ (Forall (eq false) results -> _current_focus m = Some 0)
  /\ exists i, _current_focus m = Some i
       /\ (i = 0 \/ 0 <= i < pane_count (target m)).
Proof.
  apply (current_focus_never_absent grid_2x2 80 24 default_dwell_time_ms true
           manager_2x2
           [(Update 60 5, 0%float); (UpdateFromCell 1 1, 0.1%float);
            (Update 60 20, 0.4%float); (FocusPane 2, 0.5%float)]
           (committed (committed manager_2x2 3) 2)
           [false; false; true; true]
           [TargetFocusPane 3; FocusChange (Some 0) 3;
            TargetFocusPane 2; FocusChange (Some 3) 2]).
  - apply adapter_resolves_in_range; simpl; lia.
  - vm_compute. reflexivity.
  - vm_compute. reflexivity.
Defined.

(** ** What every reachable manager satisfies *)

Section Reachable.
Context {T : Type} `{FocusTarget T}.
Implicit Types (m : FocusManager T) (P : Z).

Lemma differ_dwell m p clock :
  focus_and_candidate_differ m ->
  focus_and_candidate_differ (FocusManager.dwell m p clock).1.1.
Proof.
  intros [[i Hi] Hne]. unfold FocusManager.dwell.
  case_bool_decide as Hcur; [split; [eauto|discriminate]|].
  case_bool_decide as Hcand; cbn [negb].
  - destruct (_candidate_start_time m) as [start|]; [|split; eauto].
    destruct (float_ge_int _ _); [|split; eauto].
    split; [exists p; reflexivity|discriminate].
  - split; [eauto|]. simpl. intros P [= <-]. exact Hcur.
Qed.

Lemma differ_deliver m c clock m' changed evs :
  focus_and_candidate_differ m ->
  deliver m c clock = Ok (m', changed, evs) ->
  focus_and_candidate_differ m'.
Proof.
  intros Hinv Hstep. pose proof Hinv as [[i Hi] Hne].
  destruct c as [x y|row col|index]; simpl in Hstep.
  - unfold FocusManager.update in Hstep.
    destruct (FocusManager.pane_at m x y) as [[p|]|k e];
      cbn in Hstep; [| |discriminate].
    + pose proof (differ_dwell m p clock Hinv) as Hd.
      destruct (FocusManager.dwell m p clock) as [[m1 r1] e1].
      injection Hstep as <- _ _. exact Hd.
    + injection Hstep as <- _ _. split; [eauto|discriminate].
  - unfold FocusManager.update_from_cell in Hstep.
    destruct (_ || _).
    + injection Hstep as <- _ _. split; [eauto|discriminate].
    + pose proof (differ_dwell m (row * cols (target m) + col) clock Hinv) as Hd.
      destruct (FocusManager.dwell m _ clock) as [[m1 r1] e1].
      injection Hstep as <- _ _. exact Hd.
  - unfold FocusManager.focus_pane in Hstep.
    destruct (_ || _); [injection Hstep as <- _ _; exact Hinv|].
    case_bool_decide; injection Hstep as <- _ _; [exact Hinv|].
    split; [exists index; reflexivity|discriminate].
Qed.

Lemma reachable_focus_and_candidate m :
  reachable m -> focus_and_candidate_differ m.
Proof.
  induction 1 as [tgt width height dwell callback m Hinit
                 |m c clock m' changed evs _ IH Hstep].
  - unfold FocusManager.init in Hinit.
    destruct (inverse_or_zero width) as [inv_w|k e]; [|discriminate].
    destruct (inverse_or_zero height) as [inv_h|k e]; [|discriminate].
    cbn in Hinit. injection Hinit as <-.
    split; [exists 0; reflexivity|discriminate].
  - eapply differ_deliver; eassumption.
Qed.
(** A run of samples on [P] begins where [P] is not the candidate: a new
    manager has no candidate, and a gaze sample that does not resolve to
    [P] never leaves [P] as the candidate. *)
Lemma candidate_after_other_sample m c clock r P m' changed evs :
  is_gaze c = true ->
  resolves m c = Ok r ->
  r <> Some P ->
  deliver m c clock = Ok (m', changed, evs) ->
  _candidate_focus m' <> Some P.
Proof.
  intros Hgaze Hres Hother Hstep.
  rewrite (deliver_gaze m c clock Hgaze), Hres in Hstep. cbn in Hstep.
  destruct r as [Q|]; [|injection Hstep as <- _ _; discriminate].
  unfold FocusManager.dwell in Hstep.
  case_bool_decide as Hcur; [injection Hstep as <- _ _; discriminate|].
  case_bool_decide as Hcand; cbn [negb] in Hstep.
  - assert (Hkeep : _candidate_focus m <> Some P) by (rewrite Hcand; congruence).
    destruct (_candidate_start_time m) as [start|];
      [|injection Hstep as <- _ _; exact Hkeep].
    destruct (float_ge_int _ _); injection Hstep as <- _ _;
      [discriminate|exact Hkeep].
  - injection Hstep as <- _ _. simpl. congruence.
Qed.

Lemma candidate_at_construction (tgt : T) width height dwell callback m P :
  FocusManager.init tgt width height dwell callback = Ok m ->
  _candidate_focus m <> Some P.
Proof.
  unfold FocusManager.init.
  destruct (inverse_or_zero width) as [inv_w|k e]; [|discriminate].
  destruct (inverse_or_zero height) as [inv_h|k e]; [|discriminate].
  cbn. intros [= <-]. discriminate.
Qed.
End Reachable.

(** ** Binary payloads *)

Lemma unpack_floats_take_8 data :
  (8 <= length data)%nat ->
  unpack_floats (take 8 data) = [float_at data 0; float_at data 4].
Proof.
  intros Hlen.
  do 8 (destruct data as [|? data]; [simpl in Hlen; lia|]).
  reflexivity.
Qed.

Lemma unpack_floats_take_12 data :
  (12 <= length data)%nat ->
  unpack_floats (take 12 data) = [float_at data 0; float_at data 4; float_at data 8].
Proof.
  intros Hlen.
  do 12 (destruct data as [|? data]; [simpl in Hlen; lia|]).
  reflexivity.
Qed.

Lemma unpack_floats_take_16 data :
  (16 <= length data)%nat ->
  unpack_floats (take 16 data)
    = [float_at data 0; float_at data 4; float_at data 8; float_at data 12].
Proof.
  intros Hlen.
  do 16 (destruct data as [|? data]; [simpl in Hlen; lia|]).
  reflexivity.
Qed.

Lemma struct_unpack_take n k data :
  k = (4 * n)%nat ->
  (k <= length data)%nat ->
  struct_unpack_le_f n (take k data) = Ok (unpack_floats (take k data)).
Proof.
  intros -> Hlen. unfold struct_unpack_le_f.
  rewrite length_take, Nat.min_l by exact Hlen.
  rewrite Nat.eqb_refl. reflexivity.
Qed.

(** [from_binary] by the length of the payload. *)
Lemma from_binary_by_length data now :
  ((16 <= length data)%nat ->
   from_binary data now
     = Ok (binary_point (float_at data 0) (float_at data 4)
             (float_at data 8) (float_at data 12)))
  /\ ((12 <= length data < 16)%nat ->
      from_binary data now
        = Ok (binary_point (float_at data 0) (float_at data 4) (float_at data 8) 1))
  /\ ((8 <= length data < 12)%nat ->
      from_binary data now
        = Ok (binary_point (float_at data 0) (float_at data 4) now 1))
  /\ ((length data < 8)%nat ->
      from_binary data now = Raise ValueError (MsgInvalidBinaryLength (length data))).
Proof.
  unfold from_binary. repeat split; intros Hlen.
  - rewrite (leb_correct 16 (length data)) by lia.
    rewrite (struct_unpack_take 4 16 data) by (simpl; lia).
    rewrite unpack_floats_take_16 by lia. reflexivity.
  - rewrite (leb_correct_conv (length data) 16) by lia.
    rewrite (leb_correct 12 (length data)) by lia.
    rewrite (struct_unpack_take 3 12 data) by (simpl; lia).
    rewrite unpack_floats_take_12 by lia. reflexivity.
  - rewrite (leb_correct_conv (length data) 16) by lia.
    rewrite (leb_correct_conv (length data) 12) by lia.
    rewrite (leb_correct 8 (length data)) by lia.
    rewrite (struct_unpack_take 2 8 data) by (simpl; lia).
    rewrite unpack_floats_take_8 by lia. reflexivity.
  - rewrite (leb_correct_conv (length data) 16) by lia.
    rewrite (leb_correct_conv (length data) 12) by lia.
    rewrite (leb_correct_conv (length data) 8) by lia.
    reflexivity.
Qed.

(** C6, as the code has it. The length of a binary payload is tested
    with "at least": 16 bytes or more decode the first 16 bytes as four
    little-endian 32-bit floats (x, y, timestamp, confidence); 12 to 15
    bytes decode the first 12 as (x, y, timestamp) with confidence 1.0;
    8 to 11 bytes decode the first 8 as (x, y) with the receipt time as
    timestamp and confidence 1.0; only a payload shorter than 8 bytes gives
    a decode-error result.  No binary payload makes [parse_message]
    raise. *)
Theorem binary_decoding_by_length `{PyBuiltins} data now :
  ((16 <= length data)%nat ->
   parse_message (Bytes data) now
     = Ok (gaze_message (binary_point (float_at data 0) (float_at data 4)
                           (float_at data 8) (float_at data 12))))
  /\ ((12 <= length data < 16)%nat ->
      parse_message (Bytes data) now
        = Ok (gaze_message (binary_point (float_at data 0) (float_at data 4)
                              (float_at data 8) 1)))
  /\ ((8 <= length data < 12)%nat ->
      parse_message (Bytes data) now
        = Ok (gaze_message (binary_point (float_at data 0) (float_at data 4) now 1)))
  /\ ((length data < 8)%nat ->
      parse_message (Bytes data) now
        = Ok (error_message (ErrException (MsgInvalidBinaryLength (length data))))).
Proof.
  destruct (from_binary_by_length data now) as (H16 & H12 & H8 & H0).
  unfold parse_message.
  repeat split; intros Hlen;
    [rewrite H16|rewrite H12|rewrite H8|rewrite H0]; trivial.
Qed.

(** The 16 bytes of x = 100.5, y = 200.25, timestamp = 12.0 and
    confidence = 0.9 decode to these four values, the last one to float
    precision. *)
Lemma binary_decoding_by_length_witness :
  @parse_message refuse_text (Bytes payload_16) 7
    = Ok (gaze_message (binary_point 100.5 200.25 12 0x1.ccccccp-1)).
Proof.
  apply (proj1 (@binary_decoding_by_length refuse_text payload_16 7)).
  simpl. lia.
Defined.

(** Nine bytes are none of 8, 12 and 16, and decode to a gaze point all the
    same: the ninth byte is ignored. *)
Lemma nine_bytes_decode :
  exists data,
    length data = 9%nat
    /\ forall (B : PyBuiltins) now,
         parse_message (Bytes data) now
           = Ok (gaze_message (binary_point 100.5 200.25 now 1))
         /\ msg_type (gaze_message (binary_point 100.5 200.25 now 1)) <> ERROR.
Proof.
  exists (take 9 payload_16). split; [reflexivity|].
  intros B now. split; [|discriminate].
  destruct (from_binary_by_length (take 9 payload_16) now) as (_ & _ & H8 & _).
  unfold parse_message. rewrite H8 by (simpl; lia). reflexivity.
Qed.

(** ** Structured payloads *)

Section Structured.
Context `{PyBuiltins}.
Implicit Types (data : gmap string pyval) (now : float).

Lemma parse_object_null_coordinate :
  parse_object (PyDict {[ "x" := PyNone ]}) = Raise TypeError MsgBuiltin.
Proof.
  unfold parse_object, has_key.
  rewrite !lookup_singleton_ne by discriminate.
  rewrite lookup_singleton_eq.
  rewrite bool_decide_eq_false_2 by (intros [v Hv]; discriminate).
  rewrite bool_decide_eq_true_2 by eauto.
  cbn [andb orb negb].
  unfold from_dict, dict_get.
  rewrite !lookup_singleton_ne by discriminate.
  rewrite lookup_singleton_eq. reflexivity.
Qed.

(** C7, at the input where it fails. The mapping [{"x": None}] reaches
    [GazePoint.from_dict], whose [float(None)] raises [TypeError];
    [parse_message] has no handler on this path and the exception leaves
    it, for the mapping itself and for any text that [json.loads] reads as
    this mapping (the JSON text [{"x": null}]). *)
Theorem parse_message_raises_on_null_coordinate now :
  parse_message (Object (PyDict {[ "x" := PyNone ]})) now
    = Raise TypeError MsgBuiltin
  /\ forall s, json_loads s = Some (PyDict {[ "x" := PyNone ]}) ->
       parse_message (Object (PyStr s)) now = Raise TypeError MsgBuiltin.
Proof.
  split.
  - exact parse_object_null_coordinate.
  - intros s Hjson. unfold parse_message. rewrite Hjson.
    exact parse_object_null_coordinate.
Qed.

(** Off the gaze-point path nothing is raised: bytes, unreadable text,
    objects that are no mapping, and mappings without an x coordinate all
    give a message. *)
Lemma parse_message_elsewhere_succeeds payload now :
  match payload with
  | Bytes _ => True
  | Object (PyStr s) => json_loads s = None
  | Object (PyDict d) => d !! "x_px" = None /\ d !! "x" = None
  | Object _ => True
  end ->
  succeeds (parse_message payload now).
Proof.
  destruct payload as [b|v]; simpl.
  - intros _. destruct (from_binary b now); eexists; reflexivity.
  - destruct v; try (intros _; eexists; reflexivity).
    + intros ->. eexists; reflexivity.
    + intros [Hxpx Hx]. unfold parse_object, has_key.
      rewrite Hxpx, Hx.
      rewrite (bool_decide_eq_false_2 (is_Some None)) by (intros [v Hv]; discriminate).
      rewrite !andb_true_r. cbn [orb].
      repeat match goal with
             | |- context [if ?b then _ else _] => destruct b
             end; eexists; reflexivity.
Qed.
End Structured.

(** ** Construction with invalid dimensions *)

Lemma inverse_or_zero_nonpositive n : n <= 0 -> inverse_or_zero n = Ok 0%float.
Proof.
  intros Hn. unfold inverse_or_zero.
  destruct (Z.ltb_spec 0 n); [lia|reflexivity].
Qed.

Lemma float_of_int_raises z k e : float_of_int z = Raise k e -> k = OverflowError.
Proof.
  unfold float_of_int.
  destruct (binary_normalize prec emax z 0 false); congruence.
Qed.

Lemma inverse_or_zero_raises n k e :
  inverse_or_zero n = Raise k e -> k = OverflowError /\ 0 < n.
Proof.
  unfold inverse_or_zero. destruct (Z.ltb_spec 0 n); [|discriminate].
  destruct (float_of_int n) as [f|k' e'] eqn:Hf; [discriminate|].
  cbn. intros [= <- <-]. split; [|assumption].
  eapply float_of_int_raises, Hf.
Qed.

(** C9, as the code has it. Neither constructor checks its dimensions.
    A grid target built with rows and columns of zero or less, and a focus
    manager built with a screen width and height of zero or less, are
    constructed normally, the pre-computed inverse of each such dimension
    being 0.0.  The only failure either constructor has is the
    [OverflowError] of a positive dimension too large for a float. *)
Theorem invalid_dimensions_accepted {T : Type} `{FocusTarget T}
    terminals on_focus (tgt : T) dwell callback (n_rows n_cols width height : Z) :
  n_rows <= 0 -> n_cols <= 0 -> width <= 0 -> height <= 0 ->
  TerminalGridAdapter.init terminals n_rows n_cols on_focus
    = Ok {| _terminals := terminals; _rows := n_rows; _cols := n_cols;
            _on_focus := on_focus; _inv_cols := 0; _inv_rows := 0 |}
  /\ FocusManager.init tgt width height dwell callback
     = Ok {| target := tgt; screen_width := width; screen_height := height;
             dwell_time_ms := dwell; on_focus_change := callback;
             _current_focus := Some 0; _candidate_focus := None;
             _candidate_start_time := None;
             _inv_screen_width := 0; _inv_screen_height := 0 |}
  /\ (forall r c k e,
        TerminalGridAdapter.init terminals r c on_focus = Raise k e ->
        k = OverflowError /\ (0 < r \/ 0 < c))
  /\ (forall w h k e,
        FocusManager.init tgt w h dwell callback = Raise k e ->
        k = OverflowError /\ (0 < w \/ 0 < h)).
Proof.
  intros Hrows Hcols Hwidth Hheight. split; [|split; [|split]].
  - unfold TerminalGridAdapter.init.
    rewrite !inverse_or_zero_nonpositive by assumption. reflexivity.
  - unfold FocusManager.init.
    rewrite !inverse_or_zero_nonpositive by assumption. reflexivity.
  - intros r c k e Hraise. unfold TerminalGridAdapter.init in Hraise.
    destruct (inverse_or_zero c) as [ic|k' e'] eqn:Hc; cbn in Hraise.
    + destruct (inverse_or_zero r) as [ir|k' e'] eqn:Hr; cbn in Hraise;
        [discriminate|].
      injection Hraise as <- <-.
      destruct (inverse_or_zero_raises r k' e' Hr). auto.
    + injection Hraise as <- <-.
      destruct (inverse_or_zero_raises c k' e' Hc). auto.
  - intros w h k e Hraise. unfold FocusManager.init in Hraise.
    destruct (inverse_or_zero w) as [iw|k' e'] eqn:Hw; cbn in Hraise.
    + destruct (inverse_or_zero h) as [ih|k' e'] eqn:Hh; cbn in Hraise;
        [discriminate|].
      injection Hraise as <- <-.
      destruct (inverse_or_zero_raises h k' e' Hh). auto.
    + injection Hraise as <- <-.
      destruct (inverse_or_zero_raises w k' e' Hw). auto.
Qed.

(** A grid of four terminals declared with no rows and no columns, and a
    manager on a screen of no width and no height, are constructed. *)
Lemma invalid_dimensions_accepted_witness :
  TerminalGridAdapter.init (replicate 4 plain_widget) 0 0 false
    = Ok {| _terminals := replicate 4 plain_widget; _rows := 0; _cols := 0;
            _on_focus := false; _inv_cols := 0; _inv_rows := 0 |}
  /\ FocusManager.init grid_2x2 0 0 default_dwell_time_ms true
     = Ok {| target := grid_2x2; screen_width := 0; screen_height := 0;
             dwell_time_ms := default_dwell_time_ms; on_focus_change := true;
             _current_focus := Some 0; _candidate_focus := None;
             _candidate_start_time := None;
             _inv_screen_width := 0; _inv_screen_height := 0 |}.
Proof.
  pose proof (invalid_dimensions_accepted (replicate 4 plain_widget) false
                grid_2x2 default_dwell_time_ms true 0 0 0 0) as Hacc.
  destruct Hacc as (Hgrid & Hmanager & _); try lia.
  split; assumption.
Defined.

(** Zero rows and zero columns are accepted at construction and show
    mid-stream: the middle of the screen resolves to pane -1. *)
Lemma zero_dimensions_construct :
  exists a,
    TerminalGridAdapter.init (replicate 4 plain_widget) 0 0 false = Ok a
    /\ TerminalGridAdapter.get_pane_at_position a 0.5 0.5 = Ok (Some (-1))
    /\ exists m, FocusManager.init a 0 0 default_dwell_time_ms true = Ok m.
Proof.
  eexists. split; [vm_compute; reflexivity|].
  split; [vm_compute; reflexivity|].
  eexists. vm_compute. reflexivity.
Qed.

(** ** Defaults for the fields a gaze mapping leaves out *)

Section Defaults.
Context `{PyBuiltins}.
Implicit Types (data : gmap string pyval) (now : float).

Lemma py_float_zero : py_float (PyInt 0) = Ok 0%float.
Proof. reflexivity. Qed.

(** A float field that is left out takes its default; one that is there
    decides by itself whether the conversion succeeds. *)
Lemma float_field_or_default data k default f0 :
  py_float default = Ok f0 ->
  (forall v, data !! k = Some v -> succeeds (py_float v)) ->
  exists f, py_float (dict_get data k default) = Ok f
            /\ (data !! k = None -> f = f0).
Proof.
  intros Hdefault Hpresent. unfold dict_get.
  destruct (data !! k) as [v|].
  - destruct (Hpresent v eq_refl) as [f Hf]. exists f. split; [exact Hf|discriminate].
  - exists f0. split; [exact Hdefault|reflexivity].
Qed.

(** C10. A mapping with an x coordinate that converts decodes to a gaze
    sample whenever the fields that are present convert: a missing field
    never makes the decoding fail, and takes its default, y = 0.0 when both
    [y_px] and [y] are missing, timestamp = 0.0 (not the receipt time),
    confidence = 1.0, seq = 0, and no cell.  When the mapping has no
    ["error"] entry and is no hello, [parse_message] returns that gaze
    sample. *)
Theorem missing_fields_take_defaults data :
  is_Some (data !! "x_px") \/ is_Some (data !! "x") ->
  succeeds (py_float (dict_get data "x_px" (dict_get data "x" (PyInt 0)))) ->
  (forall v, data !! "y_px" = Some v -> succeeds (py_float v)) ->
  (data !! "y_px" = None -> forall v, data !! "y" = Some v -> succeeds (py_float v)) ->
  (forall v, data !! "timestamp" = Some v -> succeeds (py_float v)) ->
  (forall v, data !! "confidence" = Some v -> succeeds (py_float v)) ->
  (forall v, data !! "seq" = Some v -> succeeds (py_int v)) ->
  cell_well_formed data ->
  exists gp,
    from_dict data = Ok gp
    /\ py_float (dict_get data "x_px" (dict_get data "x" (PyInt 0))) = Ok (gp_x gp)
    /\ (data !! "y_px" = None -> data !! "y" = None -> gp_y gp = 0%float)
    /\ (data !! "timestamp" = None -> gp_timestamp gp = 0%float)
    /\ (data !! "confidence" = None -> gp_confidence gp = 1%float)
    /\ (data !! "seq" = None -> gp_seq gp = 0)
    /\ (data !! "cell" = None -> gp_cell_row gp = PyNone /\ gp_cell_col gp = PyNone)
    /\ (data !! "error" = None ->
        is_hello (dict_get data "type" PyNone) = false ->
        forall now, parse_message (Object (PyDict data)) now = Ok (gaze_message gp)).
Proof.
  intros Hx [x Hxv] Hypx Hy Hts Hconf Hseq Hcell.
  assert (Hyv : exists y,
             py_float (dict_get data "y_px" (dict_get data "y" (PyInt 0))) = Ok y
             /\ (data !! "y_px" = None -> data !! "y" = None -> y = 0%float)).
  { unfold dict_get at 1. destruct (data !! "y_px") as [v|] eqn:Hv.
    - destruct (Hypx v eq_refl) as [y Hyf]. exists y. split; [exact Hyf|discriminate].
    - destruct (float_field_or_default data "y" (PyInt 0) 0%float py_float_zero (Hy eq_refl))
        as (y & Hyf & Hy0).
      exists y. split; [exact Hyf|]. intros _. exact Hy0. }
  destruct Hyv as (y & Hyf & Hy0).
  destruct (float_field_or_default data "timestamp" (PyInt 0) 0%float py_float_zero Hts)
    as (ts & Htsf & Hts0).
  destruct (float_field_or_default data "confidence" (PyFloat 1) 1%float eq_refl Hconf)
    as (conf & Hconff & Hconf0).
  assert (Hseqv : exists n, py_int (dict_get data "seq" (PyInt 0)) = Ok n
                            /\ (data !! "seq" = None -> n = 0)).
  { unfold dict_get. destruct (data !! "seq") as [v|].
    - destruct (Hseq v eq_refl) as [n Hn]. exists n. split; [exact Hn|discriminate].
    - exists 0. split; reflexivity. }
  destruct Hseqv as (n & Hnf & Hn0).
  assert (Hcellv : exists row col,
             match data !! "cell" with
             | Some c =>
                 if py_truthy c then
                   match c with
                   | PyDict cd => Ok (dict_get cd "row" PyNone, dict_get cd "col" PyNone)
                   | _ => Raise AttributeError MsgBuiltin
                   end
                 else Ok (PyNone, PyNone)
             | None => Ok (PyNone, PyNone)
             end = Ok (row, col)
             /\ (data !! "cell" = None -> row = PyNone /\ col = PyNone)).
  { destruct (data !! "cell") as [c|] eqn:Hc.
    - destruct (py_truthy c) eqn:Htruthy.
      + destruct (Hcell c Hc Htruthy) as [cd ->].
        eexists _, _. split; [reflexivity|discriminate].
      + exists PyNone, PyNone. split; [reflexivity|discriminate].
    - exists PyNone, PyNone. split; [reflexivity|]. intros _. split; reflexivity. }
  destruct Hcellv as (row & col & Hcellf & Hcell0).
  exists {| gp_x := x; gp_y := y; gp_timestamp := ts; gp_confidence := conf;
            gp_seq := n; gp_cell_row := row; gp_cell_col := col |}.
  assert (Hdecode : from_dict data
            = Ok {| gp_x := x; gp_y := y; gp_timestamp := ts; gp_confidence := conf;
                    gp_seq := n; gp_cell_row := row; gp_cell_col := col |}).
  { unfold from_dict. rewrite Hcellf. cbn [mbind outcome_bind].
    rewrite Hxv. cbn [mbind outcome_bind].
    rewrite Hyf. cbn [mbind outcome_bind].
    rewrite Htsf. cbn [mbind outcome_bind].
    rewrite Hconff. cbn [mbind outcome_bind].
    rewrite Hnf. reflexivity. }
  split; [exact Hdecode|]. split; [exact Hxv|].
  repeat (split; [assumption|]).
  intros Herr Hhello now. unfold parse_message, parse_object, has_key.
  rewrite Hhello, andb_false_r.
  rewrite Herr, (bool_decide_eq_false_2 (is_Some None)) by (intros [v Hv]; discriminate).
  assert (Hhas : bool_decide (is_Some (data !! "x_px"))
                 || bool_decide (is_Some (data !! "x")) = true).
  { destruct Hx as [Hx|Hx]; rewrite (bool_decide_eq_true_2 _ Hx);
      [reflexivity|apply orb_true_r]. }
  apply orb_true_iff in Hhas as Hhas'.
  replace (bool_decide (is_Some (data !! "status"))
           && negb (bool_decide (is_Some (data !! "x_px")))
           && negb (bool_decide (is_Some (data !! "x")))) with false.
  - rewrite Hhas, Hdecode. reflexivity.
  - destruct Hhas' as [-> | ->]; cbn [negb]; rewrite ?andb_false_r; reflexivity.
Qed.
End Defaults.

(** The mapping [{"x": 0.5}] decodes to the gaze sample at (0.5, 0.0) with
    timestamp 0.0, confidence 1.0 and sequence number 0. *)
Lemma missing_fields_take_defaults_witness :
  exists gp,
    @from_dict refuse_text {[ "x" := PyFloat 0.5 ]} = Ok gp
    /\ @py_float refuse_text (PyFloat 0.5) = Ok (gp_x gp)
    /\ gp_y gp = 0%float
    /\ gp_timestamp gp = 0%float
    /\ gp_confidence gp = 1%float
    /\ gp_seq gp = 0
    /\ (gp_cell_row gp = PyNone /\ gp_cell_col gp = PyNone)
    /\ forall now,
         @parse_message refuse_text (Object (PyDict {[ "x" := PyFloat 0.5 ]})) now
           = Ok (gaze_message gp).
Proof.
  destruct (@missing_fields_take_defaults refuse_text {[ "x" := PyFloat 0.5 ]})
    as (gp & Hdec & Hx & Hy & Hts & Hconf & Hseq & Hcell & Hmsg).
  - right. exists (PyFloat 0.5). reflexivity.
  - exists 0.5%float. reflexivity.
  - intros v Hv. rewrite lookup_singleton_ne in Hv by discriminate. discriminate.
  - intros _ v Hv. rewrite lookup_singleton_ne in Hv by discriminate. discriminate.
  - intros v Hv. rewrite lookup_singleton_ne in Hv by discriminate. discriminate.
  - intros v Hv. rewrite lookup_singleton_ne in Hv by discriminate. discriminate.
  - intros v Hv. rewrite lookup_singleton_ne in Hv by discriminate. discriminate.
  - intros v Hv. rewrite lookup_singleton_ne in Hv by discriminate. discriminate.
  - exists gp. repeat split; try assumption;
      try (apply Hy || apply Hts || apply Hconf || apply Hseq || apply Hcell);
      try reflexivity.
    apply Hmsg; reflexivity.
Defined.

(** The same sample, written out, whatever the text builtins are. *)
Lemma x_only_mapping_decodes `{PyBuiltins} now :
  parse_message (Object (PyDict {[ "x" := PyFloat 0.5 ]})) now
    = Ok (gaze_message (point_with_defaults 0.5)).
Proof.
  unfold parse_message, parse_object, has_key.
  rewrite !lookup_singleton_ne by discriminate.
  rewrite lookup_singleton_eq.
  rewrite bool_decide_eq_false_2 by (intros [v Hv]; discriminate).
  rewrite bool_decide_eq_true_2 by eauto.
  cbn [andb orb negb].
  unfold from_dict, dict_get.
  rewrite !lookup_singleton_ne by discriminate.
  rewrite lookup_singleton_eq. reflexivity.
Qed.

(** ** Manual focus *)

Section ManualFocus.
Context {T : Type} `{StableGrid T}.
Implicit Types (m : FocusManager T) (P index : Z) (clock since : float).

(** X1. A manual [focus_pane] on an existing pane other than the focused
    one commits at once, whatever dwell is in flight: it returns [True],
    the focus is the pane, the candidate and its start time are dropped,
    the target's [focus_pane] is called and then the callback with
    (old focus, pane).  The dwell that was in flight on another pane [P]
    is lost: the next sample on [P] starts a new candidate at its own
    time. *)
Theorem manual_focus_commits_at_once m index P c clock_manual clock :
  0 <= index < pane_count (target m) ->
  _current_focus m <> Some index ->
  P <> index ->
  gazes_at m P (c, clock) ->
  FocusManager.focus_pane m index
    = Ok (committed m index, true, TargetFocusPane index :: notification m index)
  /\ _current_focus (committed m index) = Some index
  /\ _candidate_focus (committed m index) = None
  /\ _candidate_start_time (committed m index) = None
  /\ run m [(FocusPane index, clock_manual); (c, clock)]
     = Ok (FocusManager.set_candidate (committed m index) (Some P)
             (Some (clock * 1000)%float),
           [true; false], TargetFocusPane index :: notification m index).
Proof.
  intros Hrange Hcur Hne Hgaze.
  assert (Hmanual : FocusManager.focus_pane m index
            = Ok (committed m index, true,
                  TargetFocusPane index :: notification m index)).
  { unfold FocusManager.focus_pane.
    destruct (Z.ltb_spec index 0); [lia|].
    destruct (Z.leb_spec (pane_count (target m)) index); [lia|].
    cbn [orb]. rewrite (bool_decide_eq_false_2 _ Hcur). reflexivity. }
  split; [exact Hmanual|]. repeat split.
  destruct (gazes_at_commit m P index (c, clock) Hgaze) as [Hg Hr].
  change (is_gaze c = true) in Hg.
  change (resolves (committed m index) c = Ok (Some P)) in Hr.
  pose proof (deliver_gaze (committed m index) c clock Hg) as Hstep.
  rewrite Hr in Hstep. cbn [mbind outcome_bind] in Hstep.
  rewrite (dwell_new_candidate (committed m index) P clock) in Hstep;
    [|simpl; congruence|discriminate].
  cbn [run]. change (deliver m (FocusPane index) clock_manual)
    with (FocusManager.focus_pane m index).
  rewrite Hmanual. cbn [mbind outcome_bind]. rewrite Hstep.
  cbn [mbind outcome_bind]. rewrite app_nil_r. reflexivity.
Qed.

(** X2. A manual [focus_pane] on a pane that does not exist, or on the pane
    that is focused already, returns [False] and changes nothing at all; in
    particular a dwell in flight goes on: the candidate commits at the next
    sample that reaches the threshold counted from its original start. *)
Theorem rejected_manual_focus_keeps_dwell m index P since c clock_manual clock :
  index < 0 \/ pane_count (target m) <= index \/ _current_focus m = Some index ->
  _current_focus m <> Some P ->
  _candidate_focus m = Some P ->
  _candidate_start_time m = Some (since * 1000)%float ->
  gazes_at m P (c, clock) ->
  dwell_reached m since clock = true ->
  FocusManager.focus_pane m index = Ok (m, false, [])
  /\ run m [(FocusPane index, clock_manual); (c, clock)]
     = Ok (committed m P, [false; true], TargetFocusPane P :: notification m P).
Proof.
  intros Hrej Hcur Hcand Hstart [Hg Hr] Hgo. simpl in Hg, Hr.
  assert (Hmanual : FocusManager.focus_pane m index = Ok (m, false, [])).
  { unfold FocusManager.focus_pane.
    destruct (Z.ltb_spec index 0); [reflexivity|].
    destruct (Z.leb_spec (pane_count (target m)) index); [reflexivity|].
    cbn [orb]. destruct Hrej as [?|[?|Hsame]]; try lia.
    rewrite (bool_decide_eq_true_2 _ Hsame). reflexivity. }
  split; [exact Hmanual|].
  pose proof (deliver_gaze m c clock Hg) as Hstep.
  rewrite Hr in Hstep. cbn [mbind outcome_bind] in Hstep.
  rewrite (dwell_commits m P since clock Hcur Hcand Hstart Hgo) in Hstep.
  cbn [run]. change (deliver m (FocusPane index) clock_manual)
    with (FocusManager.focus_pane m index).
  rewrite Hmanual. cbn [mbind outcome_bind]. rewrite Hstep.
  cbn [mbind outcome_bind]. rewrite app_nil_r. reflexivity.
Qed.
End ManualFocus.

(** Pane 0 is focused and pane 1 has been dwelt on since 0 ms; pane 2 is
    focused by hand, and the next look at pane 1 starts over. *)
Lemma manual_focus_commits_at_once_witness :
  FocusManager.focus_pane
    (FocusManager.set_candidate manager_2x2 (Some 1) (Some 0%float)) 2
    = Ok (committed manager_2x2 2, true, [TargetFocusPane 2; FocusChange (Some 0) 2])
  /\ _current_focus (committed manager_2x2 2) = Some 2
  /\ _candidate_focus (committed manager_2x2 2) = None
  /\ _candidate_start_time (committed manager_2x2 2) = None
  /\ run (FocusManager.set_candidate manager_2x2 (Some 1) (Some 0%float))
       [(FocusPane 2, 0.15%float); (Update 60 5, 0.25%float)]
     = Ok (FocusManager.set_candidate (committed manager_2x2 2) (Some 1)
             (Some (0.25 * 1000)%float),
           [true; false], [TargetFocusPane 2; FocusChange (Some 0) 2]).
Proof.
  apply (manual_focus_commits_at_once
           (FocusManager.set_candidate manager_2x2 (Some 1) (Some 0%float))
           2 1 (Update 60 5) 0.15%float 0.25%float).
  - vm_compute. split; [discriminate|reflexivity].
  - discriminate.
  - lia.
  - split; vm_compute; reflexivity.
Defined.

(** Pane 1 has been dwelt on since 0 ms; a manual focus of pane 7, which
    the 2x2 grid does not have, changes nothing and the look at pane 1 at
    250 ms commits. *)
Lemma rejected_manual_focus_keeps_dwell_witness :
  FocusManager.focus_pane
    (FocusManager.set_candidate manager_2x2 (Some 1) (Some (0 * 1000)%float)) 7
    = Ok (FocusManager.set_candidate manager_2x2 (Some 1) (Some (0 * 1000)%float),
          false, [])
  /\ run (FocusManager.set_candidate manager_2x2 (Some 1) (Some (0 * 1000)%float))
       [(FocusPane 7, 0.15%float); (Update 60 5, 0.25%float)]
     = Ok (committed manager_2x2 1, [false; true],
           [TargetFocusPane 1; FocusChange (Some 0) 1]).
Proof.
  apply (rejected_manual_focus_keeps_dwell
           (FocusManager.set_candidate manager_2x2 (Some 1) (Some (0 * 1000)%float))
           7 1 0%float (Update 60 5) 0.15%float 0.25%float).
  - right. left. vm_compute. discriminate.
  - discriminate.
  - reflexivity.
  - reflexivity.
  - split; vm_compute; reflexivity.
  - vm_compute. reflexivity.
Defined.

(** ** What a call returns and what it changes *)

Section CallOutcomes.
Context {T : Type} `{FocusTarget T}.
Implicit Types (m : FocusManager T) (p P index : Z) (clock : float).

Lemma dwell_outcomes m p clock :
  FocusManager.dwell m p clock = (m, false, [])
  \/ FocusManager.dwell m p clock = (FocusManager.set_candidate m None None, false, [])
  \/ (_current_focus m <> Some p
      /\ FocusManager.dwell m p clock
         = (FocusManager.set_candidate m (Some p) (Some (clock * 1000)%float),
            false, []))
  \/ (_current_focus m <> Some p
      /\ FocusManager.dwell m p clock
         = (committed m p, true, TargetFocusPane p :: notification m p)).
Proof.
  unfold FocusManager.dwell.
  case_bool_decide as Hcur; [right; left; reflexivity|].
  case_bool_decide as Hcand; cbn [negb]; [|right; right; left; split; trivial].
  destruct (_candidate_start_time m) as [start|]; [|left; reflexivity].
  destruct (float_ge_int _ _); [|left; reflexivity].
  right; right; right. split; trivial.
Qed.

(** Every call either leaves the focus alone (and then at most resets or
    moves the candidate) or commits a pane that was not the focus. *)
Lemma deliver_outcomes m c clock m' changed evs :
  deliver m c clock = Ok (m', changed, evs) ->
  (changed = false /\ evs = []
   /\ (m' = m \/ m' = FocusManager.set_candidate m None None
       \/ exists p, _current_focus m <> Some p
            /\ m' = FocusManager.set_candidate m (Some p) (Some (clock * 1000)%float)))
  \/ (exists p, _current_focus m <> Some p /\ m' = committed m p
        /\ changed = true /\ evs = TargetFocusPane p :: notification m p).
Proof.
  intros Hstep.
  assert (Hdwell : forall p,
            Ok (FocusManager.dwell m p clock) = Ok (m', changed, evs) ->
            (changed = false /\ evs = []
             /\ (m' = m \/ m' = FocusManager.set_candidate m None None
                 \/ exists p, _current_focus m <> Some p
                      /\ m' = FocusManager.set_candidate m (Some p)
                                (Some (clock * 1000)%float)))
            \/ (exists p, _current_focus m <> Some p /\ m' = committed m p
                  /\ changed = true /\ evs = TargetFocusPane p :: notification m p)).
  { intros p Heq.
    destruct (dwell_outcomes m p clock) as [Hd|[Hd|[[Hcur Hd]|[Hcur Hd]]]];
      rewrite Hd in Heq; injection Heq as <- <- <-.
    - left. auto.
    - left. auto.
    - left. repeat split. right. right. exists p. auto.
    - right. exists p. auto. }
  destruct c as [x y|row col|index]; simpl in Hstep.
  - unfold FocusManager.update in Hstep.
    destruct (FocusManager.pane_at m x y) as [[p|]|k e];
      cbn [mbind outcome_bind] in Hstep; [| |discriminate].
    + apply (Hdwell p), Hstep.
    + injection Hstep as <- <- <-. left. auto.
  - unfold FocusManager.update_from_cell in Hstep.
    destruct (_ || _).
    + injection Hstep as <- <- <-. left. auto.
    + eapply Hdwell, Hstep.
  - unfold FocusManager.focus_pane in Hstep.
    destruct (_ || _); [injection Hstep as <- <- <-; left; auto|].
    case_bool_decide as Hcur; injection Hstep as <- <- <-.
    + left. auto.
    + right. exists index. auto.
Qed.

(** X3. For [update], [update_from_cell] and [focus_pane] alike, the
    returned boolean is [True] exactly when the committed focus changed, and
    exactly then an outward call is made: the target's [focus_pane] for the
    new focus, once, followed by the callback when there is one.  When it is
    [False] the focus and the target are as before. *)
Theorem returns_true_iff_focus_changes m c clock m' changed evs :
  deliver m c clock = Ok (m', changed, evs) ->
  (changed = true <-> _current_focus m' <> _current_focus m)
  /\ (changed = true <-> evs <> [])
  /\ (changed = false -> target m' = target m)
  /\ (changed = true ->
      exists p, _current_focus m' = Some p
        /\ target m' = focus_pane (target m) p
        /\ evs = TargetFocusPane p :: notification m p).
Proof.
  intros Hstep.
  destruct (deliver_outcomes m c clock m' changed evs Hstep)
    as [(-> & -> & Hm)|(p & Hcur & -> & -> & ->)].
  - assert (Hsame : _current_focus m' = _current_focus m /\ target m' = target m).
    { destruct Hm as [->|[->|(p & _ & ->)]]; split; reflexivity. }
    destruct Hsame as [Hfocus Htarget].
    repeat split; try discriminate; try congruence.
  - repeat split; try discriminate; try congruence.
    + intros _. simpl. congruence.
    + intros _. exists p. repeat split.
Qed.

(** X4. In every manager a program can reach, a dwell candidate is never
    the pane that is focused already. *)
Theorem candidate_is_never_the_focus m P :
  reachable m ->
  _candidate_focus m = Some P ->
  _current_focus m <> Some P.
Proof.
  intros Hreach. revert P.
  induction Hreach as [tgt width height dwell callback m Hinit
                      |m c clock m' changed evs _ IH Hstep]; intros P.
  - intros Hcand. exfalso.
    exact (candidate_at_construction tgt width height dwell callback m P Hinit Hcand).
  - destruct (deliver_outcomes m c clock m' changed evs Hstep)
      as [(_ & _ & [->|[->|(p & Hcur & ->)]])|(p & _ & -> & _)].
    + apply IH.
    + discriminate.
    + simpl. congruence.
    + discriminate.
Qed.

(** X5. In every manager a program can reach, the candidate pane and its
    start time are set together and cleared together, so the test of the
    start time in [update] and [update_from_cell] never fails for a
    candidate. *)
Theorem candidate_has_start_time m :
  reachable m ->
  (_candidate_focus m = None <-> _candidate_start_time m = None).
Proof.
  induction 1 as [tgt width height dwell callback m Hinit
                 |m c clock m' changed evs _ IH Hstep].
  - unfold FocusManager.init in Hinit.
    destruct (inverse_or_zero width) as [inv_w|k e]; [|discriminate].
    destruct (inverse_or_zero height) as [inv_h|k e]; [|discriminate].
    cbn in Hinit. injection Hinit as <-. split; reflexivity.
  - destruct (deliver_outcomes m c clock m' changed evs Hstep)
      as [(_ & _ & [->|[->|(p & Hcur & ->)]])|(p & _ & -> & _)].
    + exact IH.
    + split; reflexivity.
    + split; discriminate.
    + split; reflexivity.
Qed.
End CallOutcomes.

(** The 2x2 manager after a first look at pane 1. *)
Lemma looking_at_pane_1_reachable :
  reachable (FocusManager.set_candidate manager_2x2 (Some 1) (Some (0 * 1000)%float)).
Proof.
  eapply (reachable_deliver manager_2x2 (Update 60 5) 0%float).
  - eapply reachable_init. exact (proj1 manager_2x2_constructed).
  - vm_compute. reflexivity.
Qed.

(** The sample at 210 ms that commits pane 1. *)
Lemma returns_true_iff_focus_changes_witness :
  (true = true <-> Some 1 <> Some 0)
  /\ (true = true <-> [TargetFocusPane 1; FocusChange (Some 0) 1] <> [])
  /\ (true = false -> target (committed manager_2x2 1) = grid_2x2)
  /\ (true = true ->
      exists p, _current_focus (committed manager_2x2 1) = Some p
        /\ target (committed manager_2x2 1) = focus_pane grid_2x2 p
        /\ [TargetFocusPane 1; FocusChange (Some 0) 1]
           = TargetFocusPane p
               :: notification
                    (FocusManager.set_candidate manager_2x2 (Some 1)
                       (Some (0 * 1000)%float)) p).
Proof.
  apply (returns_true_iff_focus_changes
           (FocusManager.set_candidate manager_2x2 (Some 1) (Some (0 * 1000)%float))
           (Update 60 5) 0.21%float (committed manager_2x2 1) true
           [TargetFocusPane 1; FocusChange (Some 0) 1]).
  vm_compute. reflexivity.
Defined.

Lemma candidate_is_never_the_focus_witness :
  _current_focus
    (FocusManager.set_candidate manager_2x2 (Some 1) (Some (0 * 1000)%float))
    <> Some 1.
Proof.
  apply (candidate_is_never_the_focus _ 1 looking_at_pane_1_reachable).
  reflexivity.
Defined.

Lemma candidate_has_start_time_witness :
  _candidate_focus
    (FocusManager.set_candidate manager_2x2 (Some 1) (Some (0 * 1000)%float)) = None
  <-> _candidate_start_time
        (FocusManager.set_candidate manager_2x2 (Some 1) (Some (0 * 1000)%float)) = None.
Proof.
  apply (candidate_has_start_time _ looking_at_pane_1_reachable).
Defined.

(** ** Dwell progress *)

Lemma ltb_leb x y : (x <? y)%float = true -> (x <=? y)%float = true.
Proof.
  rewrite FloatAxioms.ltb_spec, FloatAxioms.leb_spec. unfold SFltb, SFleb.
  destruct (SFcompare (Prim2SF x) (Prim2SF y)) as [[]|]; congruence.
Qed.

(** X6. While a candidate is in flight and the threshold is an int the
    division accepts, [get_dwell_progress] reports that candidate with a
    fraction that is never above 1.0 and never NaN; with no candidate it
    reports (None, 0.0). *)
Theorem dwell_progress_at_most_one {T : Type} (m : FocusManager T)
    candidate start d clock :
  _candidate_focus m = Some candidate ->
  _candidate_start_time m = Some start ->
  float_of_int (dwell_time_ms m) = Ok d ->
  PrimFloat.eqb d 0 = false ->
  (exists fraction,
     get_dwell_progress m clock = Progress (Some candidate) fraction
     /\ (fraction <=? 1)%float = true)
  /\ get_dwell_progress (FocusManager.set_candidate m None None) clock
     = Progress None 0.
Proof.
  intros Hcand Hstart Hd Hnz. split; [|reflexivity].
  unfold get_dwell_progress, float_div_int. rewrite Hcand, Hstart, Hd, Hnz.
  eexists. split; [reflexivity|].
  destruct (_ <? 1)%float eqn:Hlt; [apply ltb_leb, Hlt|reflexivity].
Qed.

(** Pane 1 has been dwelt on since 0 ms with the threshold of 200 ms: at
    100 ms the progress is a half. *)
Lemma dwell_progress_at_most_one_witness :
  (exists fraction,
     get_dwell_progress
       (FocusManager.set_candidate manager_2x2 (Some 1) (Some (0 * 1000)%float))
       0.1 = Progress (Some 1) fraction
     /\ (fraction <=? 1)%float = true)
  /\ get_dwell_progress
       (FocusManager.set_candidate
          (FocusManager.set_candidate manager_2x2 (Some 1) (Some (0 * 1000)%float))
          None None) 0.1
     = Progress None 0.
Proof.
  apply (dwell_progress_at_most_one
           (FocusManager.set_candidate manager_2x2 (Some 1) (Some (0 * 1000)%float))
           1 (0 * 1000)%float 200%float 0.1%float);
    reflexivity.
Defined.

(** X7. With a dwell threshold of 0 ms, [get_dwell_progress] raises
    [ZeroDivisionError] whenever a candidate is in flight. *)
Theorem dwell_progress_zero_threshold {T : Type} (m : FocusManager T)
    candidate start clock :
  dwell_time_ms m = 0 ->
  _candidate_focus m = Some candidate ->
  _candidate_start_time m = Some start ->
  get_dwell_progress m clock = ProgressZeroDivisionError.
Proof.
  intros Hzero Hcand Hstart.
  unfold get_dwell_progress, float_div_int. rewrite Hcand, Hstart, Hzero.
  reflexivity.
Qed.

(** A manager constructed with a threshold of 0 ms, after a first look at
    pane 1: a state a program reaches, and the progress query raises. *)
Lemma dwell_progress_zero_threshold_witness :
  (exists m0 m,
     FocusManager.init grid_2x2 80 24 0 true = Ok m0
     /\ deliver m0 (Update 60 5) 0%float = Ok (m, false, [])
     /\ get_dwell_progress m 0.05 = ProgressZeroDivisionError).
Proof.
  eexists _, _. split; [vm_compute; reflexivity|].
  split; [vm_compute; reflexivity|].
  apply (dwell_progress_zero_threshold _ 1 (0 * 1000)%float); reflexivity.
Defined.

(** ** Focusing a terminal of the grid *)

Lemma adapter_focus_pane_in_range a index :
  0 <= index < TerminalGridAdapter.pane_count a ->
  TerminalGridAdapter.focus_pane a index
    = ({| _terminals :=
            imap (fun i _ => {| is_focused_pane := Z.of_nat i =? index |})
              (_terminals a);
          _rows := _rows a; _cols := _cols a; _on_focus := _on_focus a;
          _inv_cols := _inv_cols a; _inv_rows := _inv_rows a |},
       WidgetFocus index :: (if _on_focus a then [OnFocus index] else [])).
Proof.
  unfold TerminalGridAdapter.pane_count, TerminalGridAdapter.focus_pane.
  intros Hrange.
  destruct (Z.ltb_spec index 0); [lia|].
  destruct (Z.leb_spec (Z.of_nat (length (_terminals a))) index); [lia|].
  reflexivity.
Qed.

(** X8. [TerminalGridAdapter.focus_pane] on an existing pane flags that
    terminal and no other: afterwards the terminal at [index] has
    [is_focused_pane] set and every other terminal has it cleared, whatever
    the flags were; the grid keeps its terminals' number and its shape, the
    widget's [focus()] is called and then the callback when there is one. *)
Theorem adapter_focus_flags_one_terminal a index :
  0 <= index < TerminalGridAdapter.pane_count a ->
  let a' := (TerminalGridAdapter.focus_pane a index).1 in
  length (_terminals a') = length (_terminals a)
  /\ (exists t, _terminals a' !! Z.to_nat index = Some t /\ is_focused_pane t = true)
  /\ (forall i t, _terminals a' !! i = Some t ->
        is_focused_pane t = true -> Z.of_nat i = index)
  /\ at_most_one_focused (_terminals a')
  /\ (TerminalGridAdapter.focus_pane a index).2
     = WidgetFocus index :: (if _on_focus a then [OnFocus index] else []).
Proof.
  intros Hrange. rewrite (adapter_focus_pane_in_range a index Hrange).
  cbn [fst snd _terminals].
  assert (Hflag : forall i t,
            imap (fun i _ => {| is_focused_pane := Z.of_nat i =? index |})
              (_terminals a) !! i = Some t ->
            is_focused_pane t = (Z.of_nat i =? index)).
  { intros i t. rewrite list_lookup_imap.
    destruct (_terminals a !! i); simpl; [|discriminate].
    intros [= <-]. reflexivity. }
  split; [apply length_imap|]. split; [|split; [|split; [|reflexivity]]].
  - unfold TerminalGridAdapter.pane_count in Hrange.
    destruct (lookup_lt_is_Some_2 (_terminals a) (Z.to_nat index)) as [t0 Ht0]; [lia|].
    eexists. rewrite list_lookup_imap, Ht0. simpl. split; [reflexivity|].
    simpl. apply Z.eqb_eq. lia.
  - intros i t Hi Hfocused. rewrite (Hflag i t Hi) in Hfocused.
    apply Z.eqb_eq, Hfocused.
  - intros i j ti tj Hi Hj Hfi Hfj.
    rewrite (Hflag i ti Hi) in Hfi. rewrite (Hflag j tj Hj) in Hfj.
    apply Z.eqb_eq in Hfi, Hfj. lia.
Qed.

Lemma adapter_focus_flags_one_terminal_witness :
  let a' := (TerminalGridAdapter.focus_pane grid_2x2 3).1 in
  length (_terminals a') = 4%nat
  /\ (exists t, _terminals a' !! 3%nat = Some t /\ is_focused_pane t = true)
  /\ (forall i t, _terminals a' !! i = Some t ->
        is_focused_pane t = true -> Z.of_nat i = 3)
  /\ at_most_one_focused (_terminals a')
  /\ (TerminalGridAdapter.focus_pane grid_2x2 3).2 = [WidgetFocus 3].
Proof.
  apply (adapter_focus_flags_one_terminal grid_2x2 3).
  vm_compute. split; [discriminate|reflexivity].
Defined.

(** X9. Whatever index it is given, [TerminalGridAdapter.focus_pane] never
    leaves two terminals flagged as focused when there were not two
    before: an index outside the grid changes nothing and calls nothing,
    an index inside it flags that terminal alone. *)
Theorem adapter_focus_keeps_single_flag a index :
  at_most_one_focused (_terminals a) ->
  at_most_one_focused (_terminals (TerminalGridAdapter.focus_pane a index).1)
  /\ (index < 0 \/ TerminalGridAdapter.pane_count a <= index ->
      TerminalGridAdapter.focus_pane a index = (a, [])).
Proof.
  intros Hone.
  destruct (decide (0 <= index < TerminalGridAdapter.pane_count a)) as [Hin|Hout].
  - split; [|lia].
    apply (adapter_focus_flags_one_terminal a index Hin).
  - assert (Hsame : TerminalGridAdapter.focus_pane a index = (a, [])).
    { unfold TerminalGridAdapter.pane_count in Hout.
      unfold TerminalGridAdapter.focus_pane.
      destruct (Z.ltb_spec index 0); [reflexivity|].
      destruct (Z.leb_spec (Z.of_nat (length (_terminals a))) index);
        [reflexivity|lia]. }
    rewrite Hsame. split; [exact Hone|trivial].
Qed.

Lemma adapter_focus_keeps_single_flag_witness :
  at_most_one_focused (_terminals (TerminalGridAdapter.focus_pane grid_2x2 9).1)
  /\ (9 < 0 \/ TerminalGridAdapter.pane_count grid_2x2 <= 9 ->
      TerminalGridAdapter.focus_pane grid_2x2 9 = (grid_2x2, [])).
Proof.
  apply (adapter_focus_keeps_single_flag grid_2x2 9).
  intros i j ti tj Hi Hj Hfi.
  apply (lookup_replicate_1 4 plain_widget) in Hi as [-> _]. discriminate.
Defined.

(** X10. The last focus wins: focusing pane [j] after pane [i] leaves the
    grid as focusing [j] alone does, and focusing the same pane twice is
    the same as focusing it once. *)
Theorem adapter_focus_last_wins a i j :
  0 <= j < TerminalGridAdapter.pane_count a ->
  (TerminalGridAdapter.focus_pane (TerminalGridAdapter.focus_pane a i).1 j).1
    = (TerminalGridAdapter.focus_pane a j).1.
Proof.
  intros Hj.
  assert (Hj' : 0 <= j < TerminalGridAdapter.pane_count
                             (TerminalGridAdapter.focus_pane a i).1).
  { unfold TerminalGridAdapter.pane_count in *.
    rewrite adapter_focus_pane_terminals. exact Hj. }
  rewrite (adapter_focus_pane_in_range _ j Hj'),
    (adapter_focus_pane_in_range a j Hj).
  cbn [fst].
  assert (Hshape : forall b : TerminalGridAdapter * list adapter_event,
            b = TerminalGridAdapter.focus_pane a i ->
            imap (fun k _ => {| is_focused_pane := Z.of_nat k =? j |}) (_terminals b.1)
              = imap (fun k _ => {| is_focused_pane := Z.of_nat k =? j |}) (_terminals a)
            /\ _rows b.1 = _rows a /\ _cols b.1 = _cols a
            /\ _on_focus b.1 = _on_focus a
            /\ _inv_cols b.1 = _inv_cols a /\ _inv_rows b.1 = _inv_rows a).
  { intros b ->. unfold TerminalGridAdapter.focus_pane.
    destruct (_ || _); cbn [fst _terminals _rows _cols _on_focus _inv_cols _inv_rows];
      [repeat split|].
    split; [|repeat split].
    apply list_eq. intros k. rewrite !list_lookup_imap.
    destruct (_terminals a !! k); reflexivity. }
  destruct (Hshape _ eq_refl) as (-> & -> & -> & -> & -> & ->). reflexivity.
Qed.

Lemma adapter_focus_last_wins_witness :
  (TerminalGridAdapter.focus_pane (TerminalGridAdapter.focus_pane grid_2x2 1).1 2).1
    = (TerminalGridAdapter.focus_pane grid_2x2 2).1.
Proof.
  apply (adapter_focus_last_wins grid_2x2 1 2).
  vm_compute. split; [discriminate|reflexivity].
Defined.

(** ** Where positions resolve *)

(** X11. On a grid with at least one row and one column,
    [get_pane_at_position] gives absent or the index of an existing pane:
    never a negative index and never one at or beyond the pane count. *)
Theorem grid_resolution_in_range a x_ratio y_ratio i :
  0 < _rows a < 2 ^ 63 ->
  0 < _cols a < 2 ^ 63 ->
  TerminalGridAdapter.get_pane_at_position a x_ratio y_ratio = Ok (Some i) ->
  0 <= i < TerminalGridAdapter.pane_count a.
Proof.
  intros Hrows Hcols Hres.
  exact (adapter_resolves_in_range a Hrows Hcols x_ratio y_ratio i Hres).
Qed.

Lemma grid_resolution_in_range_witness :
  0 <= 3 < TerminalGridAdapter.pane_count grid_2x2.
Proof.
  apply (grid_resolution_in_range grid_2x2 0.999 0.999 3).
  - simpl. lia.
  - simpl. lia.
  - vm_compute. reflexivity.
Defined.

(** A ratio of the unit interval is a zero or a positive finite number. *)
Lemma in_unit_interval_finite r :
  in_unit_interval r = true ->
  match Prim2SF r with
  | S754_zero _ | S754_finite false _ _ => True
  | _ => False
  end.
Proof.
  unfold in_unit_interval. intros Hunit.
  apply andb_true_iff in Hunit as [Hlo Hhi].
  rewrite FloatAxioms.leb_spec in Hlo, Hhi.
  change (Prim2SF 0) with (S754_zero false) in Hlo.
  change (Prim2SF 1) with (S754_finite false 4503599627370496 (-52)) in Hhi.
  destruct (Prim2SF r) as [s|[]| |[] mant e]; simpl in *;
    try exact I; discriminate.
Qed.

Lemma int_of_float_mul_zero r :
  in_unit_interval r = true -> int_of_float (r * 0) = Ok 0.
Proof.
  intros Hunit. pose proof (in_unit_interval_finite r Hunit) as Hr.
  unfold int_of_float. rewrite FloatAxioms.mul_spec.
  change (Prim2SF 0) with (S754_zero false).
  destruct (Prim2SF r) as [s|s| |[] mant e]; simpl in *; try contradiction;
    reflexivity.
Qed.

(** X12. A grid with no column resolves every position of the unit square
    to pane -1, whatever its rows and terminals are (as long as the row of
    the position can be computed): the column 0 is clamped to [cols - 1],
    and -1 is below every pane count. *)
Theorem zero_columns_resolve_to_minus_one a x_ratio y_ratio rows_f row :
  _cols a = 0 ->
  in_unit_interval x_ratio = true ->
  in_unit_interval y_ratio = true ->
  float_of_int (_rows a) = Ok rows_f ->
  int_of_float (y_ratio * rows_f) = Ok row ->
  TerminalGridAdapter.get_pane_at_position a x_ratio y_ratio = Ok (Some (-1)).
Proof.
  intros Hcols Hx Hy Hrows Hrow.
  unfold TerminalGridAdapter.get_pane_at_position.
  unfold in_unit_interval in Hx, Hy. rewrite Hx, Hy. cbn [andb negb].
  rewrite Hcols.
  change (float_of_int 0) with (@Ok float 0%float). cbn [mbind outcome_bind].
  rewrite (int_of_float_mul_zero x_ratio) by exact Hx. cbn [mbind outcome_bind].
  rewrite Hrows. cbn [mbind outcome_bind].
  rewrite Hrow. cbn [mbind outcome_bind].
  cbn [Z.leb Z.compare].
  replace ((if _rows a <=? row then _rows a - 1 else row) * 0 + (0 - 1)) with (-1)
    by lia.
  destruct (Z.leb_spec (Z.of_nat (length (_terminals a))) (-1)); [lia|reflexivity].
Qed.

Lemma zero_columns_resolve_to_minus_one_witness :
  TerminalGridAdapter.get_pane_at_position grid_no_columns 0.5 0.5 = Ok (Some (-1)).
Proof.
  apply (zero_columns_resolve_to_minus_one grid_no_columns 0.5 0.5 2 1);
    reflexivity.
Defined.

(** ** Which message a mapping makes *)

Section Routing.
Context `{PyBuiltins}.
Implicit Types (data : gmap string pyval) (now : float).

Lemma has_key_true data k v : data !! k = Some v -> has_key data k = true.
Proof. intros Hk. unfold has_key. apply bool_decide_eq_true_2. eauto. Qed.

Lemma has_key_false data k : data !! k = None -> has_key data k = false.
Proof.
  intros Hk. unfold has_key. apply bool_decide_eq_false_2.
  rewrite Hk. intros [v Hv]. discriminate.
Qed.

Lemma is_hello_has_type data :
  is_hello (dict_get data "type" PyNone) = true -> has_key data "type" = true.
Proof.
  unfold dict_get. destruct (data !! "type") as [v|] eqn:Hv; [|discriminate].
  intros _. eapply has_key_true, Hv.
Qed.

(** X13. The keys of a mapping decide its message by a fixed priority: a
    [type] of ["hello"] makes a HELLO whatever else the mapping holds (name
    and version defaulting to "Unknown" and "1.0"); otherwise an [error]
    entry makes an ERROR with that entry, even beside coordinates;
    otherwise coordinates ([x_px] or [x]) make the gaze sample of
    [from_dict], a [status] beside them being ignored; otherwise a
    [status] entry makes a STATUS; and a mapping with none of these makes
    an ERROR for an unknown format. *)
Theorem mapping_routing_priority data now :
  (is_hello (dict_get data "type" PyNone) = true ->
   parse_message (Object (PyDict data)) now
     = Ok (hello_message
             {| si_name := dict_get data "name" (PyStr "Unknown");
                si_version := dict_get data "version" (PyStr "1.0") |}))
  /\ (is_hello (dict_get data "type" PyNone) = false ->
      (forall v, data !! "error" = Some v ->
         parse_message (Object (PyDict data)) now = Ok (error_message (ErrField v)))
      /\ (data !! "error" = None ->
          (is_Some (data !! "x_px") \/ is_Some (data !! "x") ->
           parse_message (Object (PyDict data)) now
             = (gaze_point ← from_dict data; Ok (gaze_message gaze_point)))
          /\ (data !! "x_px" = None -> data !! "x" = None ->
              (forall v, data !! "status" = Some v ->
                 parse_message (Object (PyDict data)) now = Ok (status_message v))
              /\ (data !! "status" = None ->
                  parse_message (Object (PyDict data)) now
                    = Ok (error_message (ErrUnknownMessageFormat data)))))).
Proof.
  unfold parse_message, parse_object. split.
  - intros Hhello. rewrite (is_hello_has_type data Hhello), Hhello. reflexivity.
  - intros Hhello. rewrite Hhello, andb_false_r. split.
    + intros v Herr. rewrite (has_key_true data "error" v Herr).
      unfold dict_get. rewrite Herr. reflexivity.
    + intros Herr. rewrite (has_key_false data "error" Herr). split.
      * intros Hcoord.
        assert (Hhas : has_key data "x_px" || has_key data "x" = true).
        { unfold has_key. destruct Hcoord as [Hc|Hc];
            rewrite (bool_decide_eq_true_2 _ Hc); [reflexivity|apply orb_true_r]. }
        rewrite Hhas.
        apply orb_true_iff in Hhas as [-> | ->]; cbn [negb];
          rewrite ?andb_false_r; reflexivity.
      * intros Hxpx Hx.
        rewrite (has_key_false data "x_px" Hxpx), (has_key_false data "x" Hx).
        cbn [negb orb]. rewrite !andb_true_r. split.
        -- intros v Hstatus. rewrite (has_key_true data "status" v Hstatus).
           unfold dict_get. rewrite Hstatus. reflexivity.
        -- intros Hstatus. rewrite (has_key_false data "status" Hstatus).
           reflexivity.
Qed.
End Routing.

(** ** Where [parse_message] can raise *)

Section Faults.
Context `{PyBuiltins}.
Implicit Types (data : gmap string pyval) (now : float).





End Faults.


(** ** The cell of a gaze mapping *)

Section Cell.
Context `{PyBuiltins}.
Implicit Types (data : gmap string pyval).

End Cell.


(** ** Screen coordinates *)

(** X16. When either coordinate of a gaze point is above 1, the point is
    taken as pixels: [normalize_to_screen] gives its coordinates truncated
    toward zero and the screen size plays no part. *)
Theorem pixels_pass_through gaze width height width' height' :
  float_gt_int (gp_x gaze) 1 = true \/ float_gt_int (gp_y gaze) 1 = true ->
  normalize_to_screen gaze width height = normalize_to_screen gaze width' height'
  /\ normalize_to_screen gaze width height
     = (px ← int_of_float (gp_x gaze); py ← int_of_float (gp_y gaze); Ok (px, py)).
Proof.
  intros Hpixels. unfold normalize_to_screen.
  assert (Hor : float_gt_int (gp_x gaze) 1 || float_gt_int (gp_y gaze) 1 = true).
  { destruct Hpixels as [-> | ->]; [reflexivity|apply orb_true_r]. }
  rewrite Hor. split; reflexivity.
Qed.

(** The point (1.5, 0.2) is taken as pixels and becomes (1, 0) on every
    screen. *)
Lemma pixels_pass_through_witness :
  normalize_to_screen (binary_point 1.5 0.2 0 1) 1920 1080
    = normalize_to_screen (binary_point 1.5 0.2 0 1) 80 24
  /\ normalize_to_screen (binary_point 1.5 0.2 0 1) 1920 1080 = Ok (1, 0).
Proof.
  apply (pixels_pass_through (binary_point 1.5 0.2 0 1) 1920 1080 80 24).
  left. reflexivity.
Defined.

(** X17. A gaze point with no coordinate above 1 and none below zero is
    scaled by the screen, and never lands on a negative pixel. *)
Theorem normalized_point_is_not_negative gaze width height px py :
  0 <= width < 2 ^ 63 ->
  0 <= height < 2 ^ 63 ->
  (0 <=? gp_x gaze)%float = true ->
  (0 <=? gp_y gaze)%float = true ->
  float_gt_int (gp_x gaze) 1 = false ->
  float_gt_int (gp_y gaze) 1 = false ->
  normalize_to_screen gaze width height = Ok (px, py) ->
  0 <= px /\ 0 <= py.
Proof.
  intros Hw Hh Hx Hy Hx1 Hy1. unfold normalize_to_screen.
  rewrite Hx1, Hy1. cbn [orb].
  destruct (float_of_int width) as [wf|k e] eqn:Hwf; [|discriminate].
  cbn [mbind outcome_bind].
  destruct (int_of_float (gp_x gaze * wf)) as [px'|k e] eqn:Hpx; [|discriminate].
  cbn [mbind outcome_bind].
  destruct (float_of_int height) as [hf|k e] eqn:Hhf; [|discriminate].
  cbn [mbind outcome_bind].
  destruct (int_of_float (gp_y gaze * hf)) as [py'|k e] eqn:Hpy; [|discriminate].
  cbn [mbind outcome_bind]. intros [= <- <-]. split.
  - eapply int_of_float_not_negative; [|exact Hpx].
    apply (mul_not_negative _ width); assumption.
  - eapply int_of_float_not_negative; [|exact Hpy].
    apply (mul_not_negative _ height); assumption.
Qed.

(** The centre of a 1920x1080 screen. *)
Lemma normalized_point_is_not_negative_witness :
  0 <= 960 /\ 0 <= 540.
Proof.
  apply (normalized_point_is_not_negative (binary_point 0.5 0.5 0 1) 1920 1080);
    try reflexivity; lia.
Defined.

(** ** Messages at the client *)

Section ClientDispatch.
Context `{PyBuiltins}.
Implicit Types (c : GazeClient) (data : gmap string pyval) (now : float).

(** Every message the parser returns is built by one of its four
    constructors. *)
Lemma parse_message_shapes raw now msg :
  parse_message raw now = Ok msg ->
  (exists gaze, msg = gaze_message gaze)
  \/ (exists e, msg = error_message e)
  \/ (exists v, msg = status_message v)
  \/ (exists info, msg = hello_message info).
Proof.
  assert (Hobj : forall v, parse_object v = Ok msg ->
            (exists gaze, msg = gaze_message gaze)
            \/ (exists e, msg = error_message e)
            \/ (exists v, msg = status_message v)
            \/ (exists info, msg = hello_message info)).
  { intros v. unfold parse_object.
    destruct v as [| | | | | |data]; try (intros [= <-]; right; left; eauto).
    destruct (_ && is_hello _); [intros [= <-]; right; right; right; eauto|].
    destruct (has_key data "error"); [intros [= <-]; right; left; eauto|].
    destruct (_ && _ && _); [intros [= <-]; right; right; left; eauto|].
    destruct (_ || _); [|intros [= <-]; right; left; eauto].
    destruct (from_dict data) as [g|k e]; cbn; [|discriminate].
    intros [= <-]. left. eauto. }
  destruct raw as [b|v]; simpl.
  - destruct (from_binary b now); intros [= <-]; [left|right; left]; eauto.
  - destruct v; try apply Hobj.
    destruct (json_loads s) as [v'|]; [apply Hobj|].
    intros [= <-]. right. left. eauto.
Qed.

(** X18. [_handle_message] never alters the callbacks, and it overwrites
    the latest gaze point only when the payload decodes to a gaze sample:
    then the latest gaze point is that sample and [on_gaze] (when given) is
    called with it, once and last.  For every other payload the latest
    gaze point stays and [on_gaze] is not called. *)
Theorem latest_gaze_follows_samples c raw now :
  (on_gaze (handle_message c raw now).1 = on_gaze c
   /\ on_server_info (handle_message c raw now).1 = on_server_info c
   /\ on_error (handle_message c raw now).1 = on_error c
   /\ _debug_file (handle_message c raw now).1 = _debug_file c)
  /\ ((exists gaze,
         parse_message raw now = Ok (gaze_message gaze)
         /\ _latest_gaze (handle_message c raw now).1 = Some gaze
         /\ exists debug,
              (handle_message c raw now).2
                = debug ++ (if on_gaze c then [CallOnGaze gaze] else [])
              /\ (debug = [] \/ debug = [DebugWrite gaze]))
      \/ (_latest_gaze (handle_message c raw now).1 = _latest_gaze c
          /\ (forall gaze, parse_message raw now <> Ok (gaze_message gaze))
          /\ forall gaze, In (CallOnGaze gaze) (handle_message c raw now).2 -> False)).
Proof.
  unfold handle_message.
  destruct (parse_message raw now) as [msg|k m] eqn:Hparse.
  - destruct (parse_message_shapes raw now msg Hparse)
      as [[gaze ->]|[[e ->]|[[v ->]|[info ->]]]]; cbn.
    + split; [repeat split|]. left. exists gaze. repeat split.
      eexists. split; [reflexivity|].
      destruct (_debug_file c && moved_a_pixel (_latest_gaze c) gaze); auto.
    + split; [repeat split|]. right. repeat split; try discriminate.
      intros gaze. destruct (on_error c); cbn; [intros [[=]|[]]|intros []].
    + split; [repeat split|]. right. repeat split; try discriminate.
      intros gaze [].
    + split; [repeat split|]. right. repeat split; try discriminate.
      intros gaze. destruct (on_server_info c); cbn; [intros [[=]|[]]|intros []].
  - cbn. split; [repeat split|]. right. repeat split; try discriminate.
    intros gaze. destruct (on_error c); cbn; [intros [[=]|[]]|intros []].
Qed.

(** X19. A mapping whose gaze sample cannot be decoded does not stop the
    client: [_handle_message] catches the exception that [parse_message]
    lets through, leaves the client as it was, and reports "Message
    handling error" to [on_error]; when no [on_error] was given the fault
    leaves no trace at all. *)
Theorem decoding_fault_is_reported c data now k m :
  is_Some (data !! "x_px") \/ is_Some (data !! "x") ->
  data !! "error" = None ->
  is_hello (dict_get data "type" PyNone) = false ->
  from_dict data = Raise k m ->
  handle_message c (Object (PyDict data)) now
    = (c, if on_error c then [CallOnError (MessageHandlingError m)] else [])
  /\ forall s, json_loads s = Some (PyDict data) ->
       handle_message c (Object (PyStr s)) now
         = (c, if on_error c then [CallOnError (MessageHandlingError m)] else []).
Proof.
  intros Hcoord Herr Hhello Hraise.
  assert (Hobj : parse_object (PyDict data) = Raise k m).
  { unfold parse_object. rewrite Hhello, andb_false_r.
    rewrite (has_key_false data "error" Herr).
    assert (Hhas : has_key data "x_px" || has_key data "x" = true).
    { unfold has_key. destruct Hcoord as [Hc|Hc];
        rewrite (bool_decide_eq_true_2 _ Hc); [reflexivity|apply orb_true_r]. }
    rewrite Hhas.
    replace (has_key data "status" && negb (has_key data "x_px")
             && negb (has_key data "x")) with false.
    - rewrite Hraise. reflexivity.
    - apply orb_true_iff in Hhas as [-> | ->]; cbn [negb];
        rewrite ?andb_false_r; reflexivity. }
  split.
  - unfold handle_message, parse_message. rewrite Hobj. reflexivity.
  - intros s Hjson. unfold handle_message, parse_message.
    rewrite Hjson, Hobj. reflexivity.
Qed.

(** X20. A status message is dropped: for a mapping with a [status] entry
    and no coordinates (no error entry, no hello) [_handle_message] calls
    no callback and changes nothing, whatever callbacks were given. *)
Theorem status_message_is_dropped c data now v :
  data !! "status" = Some v ->
  data !! "x_px" = None ->
  data !! "x" = None ->
  data !! "error" = None ->
  is_hello (dict_get data "type" PyNone) = false ->
  handle_message c (Object (PyDict data)) now = (c, []).
Proof.
  intros Hstatus Hxpx Hx Herr Hhello.
  unfold handle_message, parse_message, parse_object.
  rewrite Hhello, andb_false_r.
  rewrite (has_key_false data "error" Herr), (has_key_true data "status" v Hstatus),
    (has_key_false data "x_px" Hxpx), (has_key_false data "x" Hx).
  reflexivity.
Qed.

(** X21. An error message reaches [on_error] with the mapping's own
    [error] entry, or with "Unknown error" when that entry is falsy (null,
    an empty text, zero); the client is left as it was. *)
Theorem error_message_is_reported c data now v :
  data !! "error" = Some v ->
  is_hello (dict_get data "type" PyNone) = false ->
  handle_message c (Object (PyDict data)) now
    = (c, if on_error c then
            [CallOnError (if py_truthy v then ReportedError (ErrField v)
                          else UnknownError)]
          else []).
Proof.
  intros Herr Hhello.
  unfold handle_message, parse_message, parse_object.
  rewrite Hhello, andb_false_r, (has_key_true data "error" v Herr).
  unfold dict_get. rewrite Herr. reflexivity.
Qed.
End ClientDispatch.

(** A client with every callback given. *)
Definition listening_client : GazeClient :=
  {| on_gaze := true; on_server_info := true; on_error := true;
     _latest_gaze := None; _debug_file := false |}.

Lemma decoding_fault_is_reported_witness :
  @handle_message refuse_text listening_client
    (Object (PyDict {[ "x" := PyNone ]})) 0
    = (listening_client, [CallOnError (MessageHandlingError MsgBuiltin)]).
Proof.
  refine (proj1 (@decoding_fault_is_reported refuse_text listening_client
                   {[ "x" := PyNone ]} 0%float TypeError MsgBuiltin _ _ _ _)).
  - right. exists PyNone. reflexivity.
  - reflexivity.
  - reflexivity.
  - reflexivity.
Defined.

Lemma status_message_is_dropped_witness :
  @handle_message refuse_text listening_client
    (Object (PyDict {[ "status" := PyStr "calibrating" ]})) 0
    = (listening_client, []).
Proof.
  apply (@status_message_is_dropped refuse_text listening_client
           {[ "status" := PyStr "calibrating" ]} 0%float (PyStr "calibrating"));
    reflexivity.
Defined.

Lemma error_message_is_reported_witness :
  @handle_message refuse_text listening_client
    (Object (PyDict {[ "error" := PyStr "" ]})) 0
    = (listening_client, [CallOnError UnknownError]).
Proof.
  apply (@error_message_is_reported refuse_text listening_client
           {[ "error" := PyStr "" ]} 0%float (PyStr "")); reflexivity.
Defined.

(** ** Provider lookup *)

Lemma get_provider_by_name providers n :
  get_provider providers (Some n)
    = List.find (fun p => String.eqb (provider_name p) n) providers.
Proof. destruct providers; reflexivity. Qed.

(** X22. [get_provider] with a name returns the first provider of the
    list that bears it: every provider before the one returned has another
    name, and [None] is returned exactly when no provider bears the name
    (an empty list included).  Without a name it returns the head of the
    list. *)
Theorem get_provider_first_match providers n :
  match get_provider providers (Some n) with
  | Some p =>
      exists before after,
        providers = before ++ p :: after
        /\ provider_name p = n
        /\ Forall (fun q => provider_name q <> n) before
  | None => Forall (fun q => provider_name q <> n) providers
  end
  /\ get_provider providers None = head providers.
Proof.
  split; [|destruct providers; reflexivity].
  rewrite get_provider_by_name.
  induction providers as [|q providers IH]; cbn [List.find].
  - constructor.
  - destruct (String.eqb_spec (provider_name q) n) as [Heq|Hne].
    + exists [], providers. repeat split; [exact Heq|constructor].
    + destruct (List.find _ providers) as [p|].
      * destruct IH as (before & after & -> & Hname & Hbefore).
        exists (q :: before), after. repeat split; [exact Hname|].
        constructor; assumption.
      * constructor; assumption.
Qed.

(** ** The mock server's gaze state *)

Lemma py_max_zero v : (0 <=? py_max 0 v)%float = true.
Proof.
  unfold py_max. destruct (0 <? v)%float eqn:Hlt; [|reflexivity].
  apply ltb_leb, Hlt.
Qed.



(** X24. On a screen whose sizes are not negative (and below 2^63), the
    pixels of a state that was just moved "up" and "left", in either
    order, are not negative whenever [to_pixels] returns: the clamp of
    [move] carries over the scaling and the truncation. *)
Theorem pixels_after_up_and_left state first second px py :
  0 <= gs_screen_width state < 2 ^ 63 ->
  0 <= gs_screen_height state < 2 ^ 63 ->
  (first = "up" /\ second = "left") \/ (first = "left" /\ second = "up") ->
  to_pixels (move (move state first) second) = Ok (px, py) ->
  0 <= px /\ 0 <= py.
Proof.
  intros Hw Hh Horder.
  assert (Hclamped : let s := move (move state first) second in
            gs_screen_width s = gs_screen_width state
            /\ gs_screen_height s = gs_screen_height state
            /\ (0 <=? gs_x s)%float = true /\ (0 <=? gs_y s)%float = true).
  { destruct Horder as [[-> ->]|[-> ->]]; cbn;
      repeat split; apply py_max_zero. }
  cbv zeta in Hclamped.
  destruct Hclamped as (Hwidth & Hheight & Hx & Hy).
  unfold to_pixels. rewrite Hwidth, Hheight.
  destruct (float_of_int (gs_screen_width state)) as [wf|k e] eqn:Hwf;
    [|discriminate].
  cbn [mbind outcome_bind].
  destruct (int_of_float _) as [px'|k e] eqn:Hpx; [|discriminate].
  cbn [mbind outcome_bind].
  destruct (float_of_int (gs_screen_height state)) as [hf|k e] eqn:Hhf;
    [|discriminate].
  cbn [mbind outcome_bind].
  destruct (int_of_float (_ * hf)) as [py'|k e] eqn:Hpy; [|discriminate].
  cbn [mbind outcome_bind]. intros [= <- <-]. split.
  - apply (int_of_float_not_negative _ _
             (mul_not_negative _ (gs_screen_width state) wf Hw Hx Hwf) Hpx).
  - apply (int_of_float_not_negative _ _
             (mul_not_negative _ (gs_screen_height state) hf Hh Hy Hhf) Hpy).
Qed.

Lemma pixels_after_up_and_left_witness :
  to_pixels (move (move default_gaze_state "up") "left") = Ok (806, 453)
  /\ 0 <= 806 /\ 0 <= 453.
Proof.
  split; [vm_compute; reflexivity|].
  apply (pixels_after_up_and_left default_gaze_state "up" "left" 806 453).
  - vm_compute. split; [discriminate|reflexivity].
  - vm_compute. split; [discriminate|reflexivity].
  - left. split; reflexivity.
  - vm_compute. reflexivity.
Defined.
